(** * terraform-provider-kanidm: the API client and its attribute accessors

    A shallow embedding of [internal/client] (client.go, person.go, group.go,
    oauth2.go, service_account.go): the schemaless attribute map returned by
    the Kanidm server with its two accessors, the classification of HTTP
    responses, and the resource operations built on them.

    Conventions.
    - A Go [string] is a sequence of bytes: [string] (a list of [ascii]).
    - A Go slice [[]T] is a [slice T]: the [nil] slice is told apart from an
      allocated slice of length zero, capacity is not modelled.
    - A Go [any] holds one of the dynamic types the accessors switch on or
      that [encoding/json] produces: [any] below.
    - [map[string]any] is [gmap string any]; a [nil] map reads like the
      empty one and the code below only reads decoded maps and writes maps
      it has just made. *)

From Stdlib Require Import ZArith Ascii String Floats.PrimFloat.
From stdpp Require Import base option list strings gmap pretty.

Set Default Proof Using "Type".
Local Open Scope string_scope.
Local Open Scope list_scope.
Local Open Scope Z_scope.

(** ** Go values *)

Inductive slice (A : Type) : Type :=
| SliceNil
| SliceOf (l : list A).
Arguments SliceNil {A}.
Arguments SliceOf {A} l.

Definition elems {A} (s : slice A) : list A :=
  match s with
  | SliceNil => []
  | SliceOf l => l
  end.

Definition len {A} (s : slice A) : nat := length (elems s).

Definition is_nil {A} (s : slice A) : bool :=
  match s with
  | SliceNil => true
  | SliceOf _ => false
  end.

Unset Elimination Schemes.
Inductive any : Type :=
| AnyNil
| AnyBool (b : bool)
| AnyFloat64 (f : PrimFloat.float)
| AnyString (s : string)
| AnySlice (v : list any)
| AnyMap (m : gmap string any)
| AnyStrings (v : slice string).
Set Elimination Schemes.

(** The type assertion [x.(string)]. *)
Definition asString (x : any) : option string :=
  match x with
  | AnyString s => Some s
  | _ => None
  end.

(** ** client.go: Entry and its accessors *)

Record Entry := mkEntry { Attrs : gmap string any }.

Definition GetString (e : Entry) (key : string) : string :=
  match Attrs e !! key with
  | None => ""
  | Some val =>
      match val with
      | AnyString v => v
      | AnySlice v =>
          if (0 <? length v)%nat then
            match v !! 0%nat with
            | Some item =>
                match asString item with
                | Some s => s
                | None => ""
                end
            | None => ""
            end
          else ""
      | _ => ""
      end
  end.

(** The body of the [for _, item := range v] loop of [GetStringSlice]. *)
Definition appendIfString (result : list string) (item : any) : list string :=
  match asString item with
  | Some s => result ++ [s]
  | None => result
  end.

Definition GetStringSlice (e : Entry) (key : string) : slice string :=
  match Attrs e !! key with
  | None => SliceNil
  | Some val =>
      match val with
      | AnySlice v => SliceOf (fold_left appendIfString v [])
      | AnyStrings v => v
      | AnyString v => SliceOf [v]
      | _ => SliceNil
      end
  end.

(** What the loop computes, said directly: the string-typed elements, in
    their order. *)
Definition stringElements (v : list any) : list string := omap asString v.

(** ** client.go: errors, requests and responses *)

(** Go [error] values of the package: the three sentinels (compared by
    identity in Go, distinct constructors here), an error made of a message
    only ([fmt.Errorf] without [%w], or an error of a library), and
    [fmt.Errorf (prefix ++ "%w") err]. *)
Inductive error : Type :=
| ErrNotFound
| ErrUnauthorized
| ErrForbidden
| errorString (msg : string)
| wrapError (prefix : string) (err : error).

(** [err.Error()]. *)
Fixpoint Error (e : error) : string :=
  match e with
  | ErrNotFound => "resource not found"
  | ErrUnauthorized => "unauthorized"
  | ErrForbidden => "forbidden"
  | errorString msg => msg
  | wrapError prefix err => prefix +:+ Error err
  end.

(** [NewCreateRequest attrs] and [NewUpdateRequest attrs] only wrap the map:
    they are the constructors. *)
Record CreateRequest := NewCreateRequest { CreateAttrs : gmap string any }.
Record UpdateRequest := NewUpdateRequest { UpdateAttrs : gmap string any }.

(** The [body any] handed to [doRequest] by the operations modelled here.
    [json.Marshal] does not fail on these (string keys, strings and slices of
    strings); a request keeps the value, not its bytes. *)
Inductive payload : Type :=
| CreateBody (r : CreateRequest)
| UpdateBody (r : UpdateRequest).

Record Request := mkRequest {
  Method : string;
  URL : string;
  Header : gmap string string;
  Body : option payload
}.

(** A response as [checkResponse] and [decodeResponse] see it: the status
    and the bytes read from the body. *)
Record Response := mkResponse {
  StatusCode : Z;
  RespBody : string
}.

(** [json.NewDecoder(body).Decode(&target)] for a zero [target] of type [T]:
    a function of the body, supplied per target type. *)
Class Unmarshal (T : Type) := unmarshal : string → error + T.
Global Hint Mode Unmarshal ! : typeclass_instances.

Definition checkResponse (resp : Response) : option error :=
  if (200 <=? StatusCode resp) && (StatusCode resp <? 300) then None
  else
    let body := RespBody resp in
    if StatusCode resp =? 404 then Some ErrNotFound
    else if StatusCode resp =? 401 then Some ErrUnauthorized
    else if StatusCode resp =? 403 then Some ErrForbidden
    else if (0 <? String.length body)%nat then
      Some (errorString
              ("API error (HTTP " +:+ pretty (StatusCode resp) +:+ "): " +:+ body))
    else
      Some (errorString ("API error (HTTP " +:+ pretty (StatusCode resp) +:+ ")")).

Definition decodeResponse {T} `{!Unmarshal T} (resp : Response) : error + T :=
  match unmarshal (RespBody resp) with
  | inl err => inl (wrapError "decode response: " err)
  | inr target => inr target
  end.

(** ** Results of the resource operations *)

Record Person := mkPerson {
  Person_ID : string;
  Person_DisplayName : string;
  Mail : slice string
}.

Record Group := mkGroup {
  Group_ID : string;
  Description : string;
  Members : slice string
}.

Record OAuth2Client := mkOAuth2Client {
  Name : string;
  DisplayName : string;
  Origin : string;
  RedirectURIs : slice string;
  ScopeMaps : gmap string (slice string);
  ClientID : string;
  ClientSecret : string;
  IsPublic : bool
}.

(** [origin[len(origin)-1] == '/'] guarded by [len(origin) > 0], and
    [origin[:len(origin)-1]]. *)
Definition endsInSlash (origin : string) : bool :=
  (0 <? String.length origin)%nat &&
  bool_decide (String.get (String.length origin - 1) origin = Some "/"%char).

Definition trimTrailingSlash (origin : string) : string :=
  if endsInSlash origin
  then String.substring 0 (String.length origin - 1) origin
  else origin.

(** [GetOAuth2Client] after the response is decoded into [entry]. *)
Definition oauth2ClientOfEntry (entry : Entry) : OAuth2Client :=
  let hasBasicSecret := bool_decide (is_Some (Attrs entry !! "oauth2_rs_basic_secret")) in
  let isPublic := negb hasBasicSecret in
  let clientName := GetString entry "name" in
  let clientName :=
    if bool_decide (clientName = "") then GetString entry "oauth2_rs_name" else clientName in
  let origin := GetString entry "oauth2_rs_origin" in
  let origin := trimTrailingSlash origin in
  {| Name := clientName;
     DisplayName := GetString entry "displayname";
     Origin := origin;
     RedirectURIs := GetStringSlice entry "oauth2_rs_origin_landing";
     ScopeMaps := ∅;
     ClientID := clientName;
     ClientSecret := "";
     IsPublic := isPublic |}.

(** [GetGroup] after the response is decoded into [entry]. *)
Definition groupOfEntry (entry : Entry) : Group :=
  let members := GetStringSlice entry "member" in
  let members := if is_nil members then SliceOf [] else members in
  {| Group_ID := GetString entry "name";
     Description := GetString entry "description";
     Members := members |}.

(** The attribute maps built by the update operations, statement by
    statement: [attrs := make(map[string]any)], then one guarded store per
    optional field. *)
Definition updatePersonAttrs (displayName : string) (mail : slice string) : gmap string any :=
  let attrs : gmap string any := ∅ in
  let attrs :=
    if bool_decide (displayName ≠ "")
    then <["displayname" := AnyStrings (SliceOf [displayName])]> attrs else attrs in
  let attrs :=
    if negb (is_nil mail) then <["mail" := AnyStrings mail]> attrs else attrs in
  attrs.

Definition updateGroupAttrs (description : string) (members : slice string) : gmap string any :=
  let attrs : gmap string any := ∅ in
  let attrs :=
    if bool_decide (description ≠ "")
    then <["description" := AnyStrings (SliceOf [description])]> attrs else attrs in
  let attrs :=
    if negb (is_nil members) then <["member" := AnyStrings members]> attrs else attrs in
  attrs.

Definition updateOAuth2ClientAttrs (displayName origin : string) (redirectURIs : slice string)
  : gmap string any :=
  let attrs : gmap string any := ∅ in
  let attrs :=
    if bool_decide (displayName ≠ "")
    then <["displayname" := AnyStrings (SliceOf [displayName])]> attrs else attrs in
  let attrs :=
    if bool_decide (origin ≠ "")
    then <["oauth2_rs_origin" := AnyStrings (SliceOf [origin])]> attrs else attrs in
  let attrs :=
    if negb (is_nil redirectURIs)
    then <["oauth2_rs_origin_landing" := AnyStrings redirectURIs]> attrs else attrs in
  attrs.

(** How an optional field shows in an attribute map: left out when the
    argument is the "leave unchanged" value, stored as [value] otherwise. *)
Definition optionalField (attrs : gmap string any) (key : string) (omitted : Prop) (value : any)
  : Prop :=
  (omitted → attrs !! key = None) ∧ (¬ omitted → attrs !! key = Some value).

(** ** The transport and the operations

    The server and the network are a [World] that the client's HTTP round
    trip ([c.httpClient.Do]) transforms; cancellation through the context is
    part of what the round trip answers.  An operation is a function of the
    [Net]: the world together with the requests put on the wire so far (the
    trace is never read by the code). *)

Definition RoundTripper (World : Type) : Type :=
  Request → World → (error + Response) * World.

Record Client (World : Type) := mkClient {
  baseURL : string;
  token : string;
  httpClient : RoundTripper World
}.
Arguments mkClient {World} _ _ _.
Arguments baseURL {World} _.
Arguments token {World} _.
Arguments httpClient {World} _.

Record Net (World : Type) := mkNet {
  world : World;
  wire : list Request
}.
Arguments mkNet {World} _ _.
Arguments world {World} _.
Arguments wire {World} _.

Definition M (World A : Type) : Type := Net World → (error + A) * Net World.

Definition ret {World A} (a : A) : M World A := fun n => (inr a, n).

Definition bind {World A B} (m : M World A) (k : A → M World B) : M World B :=
  fun n =>
    match m n with
    | (inl err, n') => (inl err, n')
    | (inr a, n') => k a n'
    end.

(** [if err != nil { return ..., fmt.Errorf (prefix ++ "%w", err) }]. *)
Definition wrap {World A} (prefix : string) (m : M World A) : M World A :=
  fun n =>
    match m n with
    | (inl err, n') => (inl (wrapError prefix err), n')
    | (inr a, n') => (inr a, n')
    end.

(** [if err := f(); err != nil { return ..., err }]. *)
Definition liftE {World A} (r : error + A) : M World A := fun n => (r, n).

Notation "x <-- m ;; k" := (bind m (fun x => k))
  (at level 100, m at next level, right associativity,
   format "x  <--  m  ;;  '/' k").

(** The requests an operation puts on the wire when run from [n]. *)
Definition sent {World A} (m : M World A) (n : Net World) : list Request :=
  drop (length (wire n)) (wire (m n).2).

(** The result record that carries a minted token, as
    [GenerateServiceAccountToken] declares it for its response. *)
Record TokenResult := mkTokenResult { Token : string }.

Section Operations.
Context {World : Type}.

(** The error of [http.NewRequestWithContext method url], if any (an URL
    that does not parse). *)
Variable newRequestError : string → string → option error.

Context `{!Unmarshal Entry} `{!Unmarshal string} `{!Unmarshal TokenResult}.

Definition requestHeader (c : Client World) : gmap string string :=
  <["Accept" := "application/json"]>
    (<["Content-Type" := "application/json"]>
       (<["Authorization" := "Bearer " +:+ token c]> ∅)).

(** The request [doRequest] builds: URL, body and the three headers. *)
Definition requestOf (c : Client World) (method path : string) (body : option payload)
  : Request :=
  {| Method := method;
     URL := baseURL c +:+ path;
     Header := requestHeader c;
     Body := body |}.

Definition doRequest (c : Client World) (method path : string) (body : option payload)
  : M World Response :=
  fun n =>
    match newRequestError method (baseURL c +:+ path) with
    | Some err => (inl (wrapError "create request: " err), n)
    | None =>
        let req := requestOf c method path body in
        match httpClient c req (world n) with
        | (inl err, w) =>
            (inl (wrapError "execute request: " err),
             {| world := w; wire := wire n ++ [req] |})
        | (inr resp, w) =>
            match checkResponse resp with
            | Some err => (inl err, {| world := w; wire := wire n ++ [req] |})
            | None => (inr resp, {| world := w; wire := wire n ++ [req] |})
            end
        end
    end.

(** *** oauth2.go *)

Definition GetOAuth2BasicSecret (c : Client World) (name : string) : M World string :=
  resp <-- wrap "get oauth2 basic secret: "
             (doRequest c "GET" ("/v1/oauth2/" +:+ name +:+ "/_basic_secret") None) ;;
  secret <-- liftE (decodeResponse resp) ;;
  ret secret.

Definition basicClientRequest (name displayName origin : string) : CreateRequest :=
  NewCreateRequest
    (<["name" := AnyStrings (SliceOf [name])]>
       (<["displayname" := AnyStrings (SliceOf [displayName])]>
          (<["oauth2_rs_origin_landing" := AnyStrings (SliceOf [origin])]> ∅))).

Definition CreateOAuth2BasicClient (c : Client World) (name displayName origin : string)
  : M World OAuth2Client :=
  let req := basicClientRequest name displayName origin in
  resp <-- wrap "create oauth2 basic client: "
             (doRequest c "POST" "/v1/oauth2/_basic" (Some (CreateBody req))) ;;
  clientSecret <-- wrap "retrieve client secret: " (GetOAuth2BasicSecret c name) ;;
  ret {| Name := name;
         DisplayName := displayName;
         Origin := origin;
         RedirectURIs := SliceNil;
         ScopeMaps := ∅;
         ClientID := name;
         ClientSecret := clientSecret;
         IsPublic := false |}.

Definition GetOAuth2Client (c : Client World) (name : string) : M World OAuth2Client :=
  resp <-- wrap "get oauth2 client: " (doRequest c "GET" ("/v1/oauth2/" +:+ name) None) ;;
  entry <-- liftE (decodeResponse resp) ;;
  ret (oauth2ClientOfEntry entry).

Definition UpdateOAuth2Client (c : Client World) (name displayName origin : string)
    (redirectURIs : slice string) : M World unit :=
  let attrs := updateOAuth2ClientAttrs displayName origin redirectURIs in
  let req := NewUpdateRequest attrs in
  resp <-- wrap "update oauth2 client: "
             (doRequest c "PATCH" ("/v1/oauth2/" +:+ name) (Some (UpdateBody req))) ;;
  ret tt.

(** *** group.go *)

Definition GetGroup (c : Client World) (id : string) : M World Group :=
  resp <-- wrap "get group: " (doRequest c "GET" ("/v1/group/" +:+ id) None) ;;
  entry <-- liftE (decodeResponse resp) ;;
  ret (groupOfEntry entry).

Definition UpdateGroup (c : Client World) (id description : string) (members : slice string)
  : M World unit :=
  let attrs := updateGroupAttrs description members in
  let req := NewUpdateRequest attrs in
  resp <-- wrap "update group: "
             (doRequest c "PATCH" ("/v1/group/" +:+ id) (Some (UpdateBody req))) ;;
  ret tt.

(** *** person.go *)

Definition GetPerson (c : Client World) (id : string) : M World Person :=
  resp <-- wrap "get person: " (doRequest c "GET" ("/v1/person/" +:+ id) None) ;;
  entry <-- liftE (decodeResponse resp) ;;
  ret {| Person_ID := GetString entry "name";
         Person_DisplayName := GetString entry "displayname";
         Mail := GetStringSlice entry "mail" |}.

Definition UpdatePerson (c : Client World) (id displayName : string) (mail : slice string)
  : M World unit :=
  let attrs := updatePersonAttrs displayName mail in
  let req := NewUpdateRequest attrs in
  resp <-- wrap "update person: "
             (doRequest c "PATCH" ("/v1/person/" +:+ id) (Some (UpdateBody req))) ;;
  ret tt.

(** Modelled from the spec: [CreatePersonCredentialResetToken] is called by
    the provider (person_resource.go, [Create] and [Update], with the person
    id and a pointer to the TTL) and returns [(string, error)], but person.go
    does not define it.  The spec: it mints a one-time token with optional TTL
    override and returns the token string verbatim.  The spec names neither
    the endpoint nor the way the TTL is sent: [resetTokenRequest id ttl] is
    the method, path and body of the request that mints the token.  Like the
    other operations it is one exchange through [doRequest], and the token is
    read from the decoded response. *)
Variable resetTokenRequest : string → option Z → string * string * option payload.

Definition CreatePersonCredentialResetToken (c : Client World) (id : string) (ttl : option Z)
  : M World string :=
  let '(method, path, body) := resetTokenRequest id ttl in
  resp <-- wrap "create credential reset token: " (doRequest c method path body) ;;
  result <-- liftE (decodeResponse resp) ;;
  ret (Token result).

End Operations.

(** A decoded entry: the exchange [GET path] run from [n] succeeds, leaves
    the network in [n'], and its body decodes into [entry]. *)
Definition fetchesEntry {World} `{!Unmarshal Entry} (newRequestError : string → string → option error)
    (c : Client World) (path : string) (n : Net World) (entry : Entry) (n' : Net World) : Prop :=
  ∃ resp, doRequest newRequestError c "GET" path None n = (inr resp, n')
          ∧ decodeResponse resp = inr entry.

(** An update operation [m] run from [n] puts on the wire nothing but the
    [PATCH] of [path] whose payload wraps [attrs], and puts it there once
    whenever the request can be built. *)
Definition sendsUpdate {World A} (newRequestError : string → string → option error)
    (m : M World A) (c : Client World) (path : string) (attrs : gmap string any)
    (n : Net World) : Prop :=
  (∀ req, req ∈ sent m n →
          req = requestOf c "PATCH" path (Some (UpdateBody (NewUpdateRequest attrs))))
  ∧ (newRequestError "PATCH" (baseURL c +:+ path) = None →
     sent m n = [requestOf c "PATCH" path (Some (UpdateBody (NewUpdateRequest attrs)))]).

(** ** A concrete server, for running the operations

    [Fake.serve routes] answers a request from a table keyed by method and
    URL (404 with an empty body when the table has no such route) and counts
    the exchanges.  The decoders stand for [encoding/json] on the bodies used
    below: a JSON string without escapes or [null] for a [string] target, and
    a table of bodies for the struct targets. *)
Module Fake.

Definition quote : string := String "034"%char EmptyString.

Definition q (s : string) : string := quote +:+ s +:+ quote.

Definition serve (routes : list (string * string * Response)) : RoundTripper nat :=
  fun req w =>
    match find (fun r => bool_decide (r.1.1 = Method req) && bool_decide (r.1.2 = URL req)) routes with
    | Some r => (inr r.2, S w)
    | None => (inr {| StatusCode := 404; RespBody := "" |}, S w)
    end.

Definition noRequestError : string → string → option error := fun _ _ => None.

Definition syntaxError : error := errorString "invalid character looking for beginning of value".

Definition decodeString : Unmarshal string :=
  fun body =>
    if bool_decide (body = "null") then inr ""
    else
      match body with
      | String c rest =>
          if bool_decide (c = "034"%char) &&
             bool_decide (String.get (String.length rest - 1) rest = Some "034"%char)
          then inr (String.substring 0 (String.length rest - 1) rest)
          else inl syntaxError
      | EmptyString => inl (errorString "EOF")
      end.

Definition decodeTable {T} (table : list (string * T)) : Unmarshal T :=
  fun body =>
    match find (fun r => bool_decide (r.1 = body)) table with
    | Some r => inr r.2
    | None => inl syntaxError
    end.

(** The body [{"attrs":{"name":["grafana"],"displayname":["Grafana"],
    "oauth2_rs_origin":["https://x.example.com/"],
    "oauth2_rs_basic_secret":["hidden"]}}] and its decoding. *)
Definition grafanaBody : string :=
  "{" +:+ q "attrs" +:+ ":{" +:+ q "name" +:+ ":[" +:+ q "grafana" +:+ "],"
  +:+ q "displayname" +:+ ":[" +:+ q "Grafana" +:+ "],"
  +:+ q "oauth2_rs_origin" +:+ ":[" +:+ q "https://x.example.com/" +:+ "],"
  +:+ q "oauth2_rs_basic_secret" +:+ ":[" +:+ q "hidden" +:+ "]}}".

Definition grafanaEntry : Entry :=
  {| Attrs :=
       <["name" := AnySlice [AnyString "grafana"]]>
         (<["displayname" := AnySlice [AnyString "Grafana"]]>
            (<["oauth2_rs_origin" := AnySlice [AnyString "https://x.example.com/"]]>
               (<["oauth2_rs_basic_secret" := AnySlice [AnyString "hidden"]]> ∅))) |}.

(** The body [{"attrs":{"name":["developers"],"description":["Dev team"]}}]
    of a group without members, and its decoding. *)
Definition developersBody : string :=
  "{" +:+ q "attrs" +:+ ":{" +:+ q "name" +:+ ":[" +:+ q "developers" +:+ "],"
  +:+ q "description" +:+ ":[" +:+ q "Dev team" +:+ "]}}".

Definition developersEntry : Entry :=
  {| Attrs :=
       <["name" := AnySlice [AnyString "developers"]]>
         (<["description" := AnySlice [AnyString "Dev team"]]> ∅) |}.

Definition decodeEntry : Unmarshal Entry :=
  decodeTable [(grafanaBody, grafanaEntry); (developersBody, developersEntry)].

(** The body [{"token":"reset-1234"}]. *)
Definition tokenBody : string := "{" +:+ q "token" +:+ ":" +:+ q "reset-1234" +:+ "}".

Definition decodeTokenResult : Unmarshal TokenResult :=
  decodeTable [(tokenBody, {| Token := "reset-1234" |})].

Definition ok (body : string) : Response := {| StatusCode := 200; RespBody := body |}.

Definition base : string := "https://idm.example.com".

(** The server after [grafana] was created as a confidential client whose
    secret endpoint answers [secretBody]. *)
Definition routes (secretBody : string) : list (string * string * Response) :=
  [ ("POST", base +:+ "/v1/oauth2/_basic", ok "null");
    ("GET", base +:+ "/v1/oauth2/grafana/_basic_secret", ok secretBody);
    ("GET", base +:+ "/v1/oauth2/grafana", ok grafanaBody);
    ("GET", base +:+ "/v1/group/developers", ok developersBody);
    ("PATCH", base +:+ "/v1/person/alice", ok "");
    ("PATCH", base +:+ "/v1/group/developers", ok "");
    ("PATCH", base +:+ "/v1/oauth2/grafana", ok "");
    ("GET", base +:+ "/v1/person/alice/_credential/_update_intent/3600", ok tokenBody) ].

Definition client (secretBody : string) : Client nat :=
  {| baseURL := base; token := "t0k3n"; httpClient := serve (routes secretBody) |}.

Definition start : Net nat := {| world := 0%nat; wire := [] |}.

(** One way to put the reset token request on the wire: [GET] on the
    credential update intent path, the TTL as a last path segment. *)
Definition resetTokenRequest (id : string) (ttl : option Z) : string * string * option payload :=
  ("GET",
   "/v1/person/" +:+ id +:+ "/_credential/_update_intent" +:+
     match ttl with Some t => "/" +:+ pretty t | None => "" end,
   None).

(** The network after [reqs] were exchanged from [start]. *)
Definition after (reqs : list Request) : Net nat := {| world := length reqs; wire := reqs |}.

Definition get (path : string) : Request := requestOf (client "null") "GET" path None.

Definition post (path : string) (body : payload) : Request :=
  requestOf (client "null") "POST" path (Some body).

Definition patch (path : string) (attrs : gmap string any) : Request :=
  requestOf (client "null") "PATCH" path (Some (UpdateBody (NewUpdateRequest attrs))).

Definition grafanaClient (secret : string) : OAuth2Client :=
  {| Name := "grafana";
     DisplayName := "Grafana";
     Origin := "https://x.example.com";
     RedirectURIs := SliceNil;
     ScopeMaps := ∅;
     ClientID := "grafana";
     ClientSecret := secret;
     IsPublic := false |}.

End Fake.

(** ** The rest of the client package

    [strings.TrimSuffix] and [strings.HasSuffix] as the Go library defines
    them, [NewClient] with its options, [errors.Is] against the sentinels of
    the package, and the operations of person.go, group.go, oauth2.go and
    service_account.go that send a [CreateRequest], an [UpdateRequest] or no
    body.  [WithTimeout] only changes a duration. *)

Definition HasSuffix (s suffix : string) : bool :=
  (String.length suffix <=? String.length s)%nat &&
  bool_decide (String.substring (String.length s - String.length suffix)
                 (String.length suffix) s = suffix).

Definition TrimSuffix (s suffix : string) : string :=
  if HasSuffix s suffix
  then String.substring 0 (String.length s - String.length suffix) s
  else s.

Definition ClientOption (World : Type) : Type := Client World → Client World.

Definition WithHTTPClient {World} (client : RoundTripper World) : ClientOption World :=
  fun c => {| baseURL := baseURL c; token := token c; httpClient := client |}.

(** [defaultClient] is the round trip of [&http.Client{Timeout: 30 * time.Second}]. *)
Definition NewClient {World} (defaultClient : RoundTripper World) (baseURL token : string)
    (opts : list (ClientOption World)) : Client World :=
  fold_left (fun c opt => opt c) opts
    {| baseURL := TrimSuffix baseURL "/"; token := token; httpClient := defaultClient |}.

Inductive sentinel : Type := NotFound | Unauthorized | Forbidden.

Definition sentinelError (t : sentinel) : error :=
  match t with
  | NotFound => ErrNotFound
  | Unauthorized => ErrUnauthorized
  | Forbidden => ErrForbidden
  end.

(** The status that [checkResponse] maps to the sentinel. *)
Definition sentinelStatus (t : sentinel) : Z :=
  match t with
  | NotFound => 404
  | Unauthorized => 401
  | Forbidden => 403
  end.

(** [errors.Is(err, sentinelError t)]: the sentinel itself, or an error that
    wraps it at any depth; an error made of a message wraps nothing. *)
Fixpoint errorsIs (err : error) (t : sentinel) : bool :=
  match err with
  | ErrNotFound => match t with NotFound => true | _ => false end
  | ErrUnauthorized => match t with Unauthorized => true | _ => false end
  | ErrForbidden => match t with Forbidden => true | _ => false end
  | errorString _ => false
  | wrapError _ inner => errorsIs inner t
  end.

Record ServiceAccount := mkServiceAccount {
  ServiceAccount_ID : string;
  APIToken : string
}.

Section MoreOperations.
Context {World : Type}.
Variable newRequestError : string → string → option error.
Context `{!Unmarshal Entry} `{!Unmarshal string}.

(** *** person.go *)

Definition CreatePerson (c : Client World) (name displayName : string) : M World Person :=
  let req := NewCreateRequest
               (<["name" := AnyStrings (SliceOf [name])]>
                  (<["displayname" := AnyStrings (SliceOf [displayName])]> ∅)) in
  resp <-- wrap "create person: " (doRequest newRequestError c "POST" "/v1/person"
                                     (Some (CreateBody req))) ;;
  ret {| Person_ID := name; Person_DisplayName := displayName; Mail := SliceNil |}.

Definition DeletePerson (c : Client World) (id : string) : M World unit :=
  resp <-- wrap "delete person: "
             (doRequest newRequestError c "DELETE" ("/v1/person/" +:+ id) None) ;;
  ret tt.

(** *** group.go *)

Definition createGroupAttrs (name description : string) : gmap string any :=
  let attrs : gmap string any := <["name" := AnyStrings (SliceOf [name])]> ∅ in
  let attrs :=
    if bool_decide (description ≠ "")
    then <["description" := AnyStrings (SliceOf [description])]> attrs else attrs in
  attrs.

Definition CreateGroup (c : Client World) (name description : string) : M World Group :=
  let attrs := createGroupAttrs name description in
  let req := NewCreateRequest attrs in
  resp <-- wrap "create group: " (doRequest newRequestError c "POST" "/v1/group"
                                    (Some (CreateBody req))) ;;
  ret {| Group_ID := name; Description := description; Members := SliceNil |}.

Definition DeleteGroup (c : Client World) (id : string) : M World unit :=
  resp <-- wrap "delete group: "
             (doRequest newRequestError c "DELETE" ("/v1/group/" +:+ id) None) ;;
  ret tt.

(** *** oauth2.go *)

Definition CreateOAuth2PublicClient (c : Client World) (name displayName origin : string)
  : M World OAuth2Client :=
  let req := NewCreateRequest
               (<["name" := AnyStrings (SliceOf [name])]>
                  (<["displayname" := AnyStrings (SliceOf [displayName])]>
                     (<["oauth2_rs_origin_landing" := AnyStrings (SliceOf [origin])]> ∅))) in
  resp <-- wrap "create oauth2 public client: "
             (doRequest newRequestError c "POST" "/v1/oauth2/_public" (Some (CreateBody req))) ;;
  ret {| Name := name;
         DisplayName := displayName;
         Origin := origin;
         RedirectURIs := SliceNil;
         ScopeMaps := ∅;
         ClientID := name;
         ClientSecret := "";
         IsPublic := true |}.

Definition DeleteOAuth2Client (c : Client World) (name : string) : M World unit :=
  resp <-- wrap "delete oauth2 client: "
             (doRequest newRequestError c "DELETE" ("/v1/oauth2/" +:+ name) None) ;;
  ret tt.

Definition DeleteOAuth2ScopeMap (c : Client World) (rsName groupName : string) : M World unit :=
  resp <-- wrap "delete oauth2 scope map: "
             (doRequest newRequestError c "DELETE"
                ("/v1/oauth2/" +:+ rsName +:+ "/_scopemap/" +:+ groupName) None) ;;
  ret tt.

Definition RegenerateOAuth2BasicSecret (c : Client World) (name : string) : M World string :=
  resp <-- wrap "regenerate oauth2 basic secret: "
             (doRequest newRequestError c "POST"
                ("/v1/oauth2/" +:+ name +:+ "/_basic_secret") None) ;;
  secret <-- liftE (decodeResponse resp) ;;
  ret secret.

(** *** service_account.go *)

Definition GetServiceAccount (c : Client World) (id : string) : M World ServiceAccount :=
  resp <-- wrap "get service account: "
             (doRequest newRequestError c "GET" ("/v1/service_account/" +:+ id) None) ;;
  entry <-- liftE (decodeResponse resp) ;;
  ret {| ServiceAccount_ID := GetString entry "name"; APIToken := "" |}.

Definition updateServiceAccountAttrs (displayName : string) : gmap string any :=
  let attrs : gmap string any := ∅ in
  let attrs :=
    if bool_decide (displayName ≠ "")
    then <["displayname" := AnyStrings (SliceOf [displayName])]> attrs else attrs in
  attrs.

Definition UpdateServiceAccount (c : Client World) (id displayName : string) : M World unit :=
  let attrs := updateServiceAccountAttrs displayName in
  let req := NewUpdateRequest attrs in
  resp <-- wrap "update service account: "
             (doRequest newRequestError c "PATCH" ("/v1/service_account/" +:+ id)
                (Some (UpdateBody req))) ;;
  ret tt.

Definition DeleteServiceAccount (c : Client World) (id : string) : M World unit :=
  resp <-- wrap "delete service account: "
             (doRequest newRequestError c "DELETE" ("/v1/service_account/" +:+ id) None) ;;
  ret tt.

End MoreOperations.

(** ** internal/provider: the Read and Delete handlers

    The handlers are modelled from the point where the prior state has been
    read into the resource model ([req.State.Get] reported no error) to the
    point where they report: a diagnostic, the removal of the resource, or
    the state to store.  Logging is left out.  The values of the plugin
    framework are null, unknown or known; [ValueString] is the empty string
    on the first two, and [types.ListValueFrom] of a slice of strings is the
    known list of them. *)

Inductive tfString : Type := StringNull | StringUnknown | StringValue (s : string).

Definition ValueString (v : tfString) : string :=
  match v with
  | StringValue s => s
  | _ => ""
  end.

Definition IsNull (v : tfString) : bool :=
  match v with
  | StringNull => true
  | _ => false
  end.

Inductive tfList : Type := ListNull | ListUnknown | ListValue (l : list string).

Inductive tfBool : Type := BoolNull | BoolUnknown | BoolValue (b : bool).

Inductive tfInt64 : Type := Int64Null | Int64Unknown | Int64Value (i : Z).

Record Diagnostic := mkDiagnostic { Summary : string; Detail : string }.

(** What a Read handler leaves in its response. *)
Inductive ReadResponse (S : Type) : Type :=
| RemoveResource
| AddError (d : Diagnostic)
| StateSet (state : S).
Arguments RemoveResource {S}.
Arguments AddError {S} d.
Arguments StateSet {S} state.

Module PersonModel.
Record t := mk {
  ID : tfString;
  DisplayName : tfString;
  Mail : tfList;
  Password : tfString;
  GenerateCredentialResetToken : tfBool;
  CredentialResetToken : tfString;
  CredentialResetTokenTTL : tfInt64
}.
End PersonModel.

(** [ScopeMaps] is a set of objects that [Read] carries over untouched: its
    type is left open. *)
Module OAuth2BasicModel.
Record t (TSet : Type) := mk {
  Name : tfString;
  DisplayName : tfString;
  Origin : tfString;
  RedirectURIs : tfList;
  ScopeMaps : TSet;
  ClientSecret : tfString
}.
Arguments mk {TSet} _ _ _ _ _ _.
Arguments Name {TSet} _.
Arguments DisplayName {TSet} _.
Arguments Origin {TSet} _.
Arguments RedirectURIs {TSet} _.
Arguments ScopeMaps {TSet} _.
Arguments ClientSecret {TSet} _.
End OAuth2BasicModel.

(** [if len(s) > 0 { types.ListValueFrom(..., s) } else { types.ListNull(...) }]. *)
Definition listOrNull (s : slice string) : tfList :=
  if (0 <? len s)%nat then ListValue (elems s) else ListNull.

Section Handlers.
Context {World : Type}.
Variable newRequestError : string → string → option error.
Context `{!Unmarshal Entry} `{!Unmarshal string}.

(** The shape shared by the four Delete handlers: not-found is not an error,
    any other failure is one diagnostic. *)
Definition deleteHandler (delete : M World unit) (summary detail : string)
  : Net World → list Diagnostic * Net World :=
  fun n =>
    match delete n with
    | (inl err, n') =>
        if errorsIs err NotFound then ([], n')
        else ([{| Summary := summary; Detail := detail +:+ Error err |}], n')
    | (inr _, n') => ([], n')
    end.





Definition personResource_Read (c : Client World) (state : PersonModel.t)
  : Net World → ReadResponse PersonModel.t * Net World :=
  fun n =>
    match GetPerson newRequestError c (ValueString (PersonModel.ID state)) n with
    | (inl err, n') =>
        if errorsIs err NotFound then (RemoveResource, n')
        else (AddError {| Summary := "Error Reading Person";
                          Detail := "Could not read person: " +:+ Error err |}, n')
    | (inr person, n') =>
        (StateSet
           {| PersonModel.ID := StringValue (Person_ID person);
              PersonModel.DisplayName := StringValue (Person_DisplayName person);
              PersonModel.Mail := listOrNull (Mail person);
              PersonModel.Password := PersonModel.Password state;
              PersonModel.GenerateCredentialResetToken :=
                PersonModel.GenerateCredentialResetToken state;
              PersonModel.CredentialResetToken := PersonModel.CredentialResetToken state;
              PersonModel.CredentialResetTokenTTL := PersonModel.CredentialResetTokenTTL state |},
         n')
    end.

Definition invalidClientType : Diagnostic :=
  {| Summary := "Invalid Client Type";
     Detail := "Expected OAuth2 basic (confidential) client but found public client. " +:+
               "This resource manages basic clients only." |}.

Definition oauth2BasicResource_Read {TSet} (c : Client World) (state : OAuth2BasicModel.t TSet)
  : Net World → ReadResponse (OAuth2BasicModel.t TSet) * Net World :=
  fun n =>
    match GetOAuth2Client newRequestError c (ValueString (OAuth2BasicModel.Name state)) n with
    | (inl err, n') =>
        if errorsIs err NotFound then (RemoveResource, n')
        else (AddError {| Summary := "Error Reading OAuth2 Basic Client";
                          Detail := "Could not read OAuth2 basic client: " +:+ Error err |}, n')
    | (inr oauth2Client, n') =>
        if IsPublic oauth2Client then (AddError invalidClientType, n')
        else
          let state :=
            {| OAuth2BasicModel.Name := StringValue (Name oauth2Client);
               OAuth2BasicModel.DisplayName := StringValue (DisplayName oauth2Client);
               OAuth2BasicModel.Origin := StringValue (Origin oauth2Client);
               OAuth2BasicModel.RedirectURIs := listOrNull (RedirectURIs oauth2Client);
               OAuth2BasicModel.ScopeMaps := OAuth2BasicModel.ScopeMaps state;
               OAuth2BasicModel.ClientSecret := OAuth2BasicModel.ClientSecret state |} in
          if IsNull (OAuth2BasicModel.ClientSecret state)
             || bool_decide (ValueString (OAuth2BasicModel.ClientSecret state) = "")
          then
            match GetOAuth2BasicSecret newRequestError c
                    (ValueString (OAuth2BasicModel.Name state)) n' with
            | (inl err, n'') => (StateSet state, n'')
            | (inr secret, n'') =>
                (StateSet
                   {| OAuth2BasicModel.Name := OAuth2BasicModel.Name state;
                      OAuth2BasicModel.DisplayName := OAuth2BasicModel.DisplayName state;
                      OAuth2BasicModel.Origin := OAuth2BasicModel.Origin state;
                      OAuth2BasicModel.RedirectURIs := OAuth2BasicModel.RedirectURIs state;
                      OAuth2BasicModel.ScopeMaps := OAuth2BasicModel.ScopeMaps state;
                      OAuth2BasicModel.ClientSecret := StringValue secret |},
                 n'')
            end
          else (StateSet state, n')
    end.

End Handlers.

(** ** Vocabulary for the properties below *)

(** A request as client [c] builds it: under its base URL, with the bearer
    token and the two JSON headers. *)
Definition builtBy {World} (c : Client World) (req : Request) : Prop :=
  (∃ path, URL req = baseURL c +:+ path)
  ∧ Header req !! "Authorization" = Some ("Bearer " +:+ token c)
  ∧ Header req !! "Content-Type" = Some "application/json"
  ∧ Header req !! "Accept" = Some "application/json".

(** A read: [GET] without a body. *)
Definition isRead (req : Request) : Prop := Method req = "GET" ∧ Body req = None.

(** [m] only appends to the wire, and only requests that satisfy [P]. *)
Definition sends {World R} (P : Request → Prop) (m : Net World → R * Net World) : Prop :=
  ∀ n, ∃ reqs, wire (m n).2 = wire n ++ reqs ∧ Forall P reqs.

(** From [n], the request can be built and the server answers it with
    [status]. *)
Definition answers {World} (newRequestError : string → string → option error)
    (c : Client World) (method path : string) (body : option payload) (n : Net World)
    (status : Z) : Prop :=
  newRequestError method (baseURL c +:+ path) = None
  ∧ ∃ resp w, httpClient c (requestOf c method path body) (world n) = (inr resp, w)
              ∧ StatusCode resp = status.

(** From [n], [m] fails with an error that [errors.Is] the sentinel [t]. *)
Definition failsWith {World A} (m : M World A) (n : Net World) (t : sentinel) : Prop :=
  ∃ err n', m n = (inl err, n') ∧ errorsIs err t = true.

(** Neither building a request nor the round trip of [c] ever fails with an
    error that is, or wraps, the sentinel [t] of this package. *)
Definition foreignErrors {World} (newRequestError : string → string → option error)
    (c : Client World) (t : sentinel) : Prop :=
  (∀ method url err, newRequestError method url = Some err → errorsIs err t = false)
  ∧ (∀ req w err w', httpClient c req w = (inl err, w') → errorsIs err t = false).

(** ** A second server, for running the rest *)
Module Scenario.

(** The body [{"attrs":{"name":["alice"],"displayname":["Alice"],
    "mail":["alice@example.com"]}}] and its decoding. *)
Definition aliceBody : string :=
  "{" +:+ Fake.q "attrs" +:+ ":{" +:+ Fake.q "name" +:+ ":[" +:+ Fake.q "alice" +:+ "],"
  +:+ Fake.q "displayname" +:+ ":[" +:+ Fake.q "Alice" +:+ "],"
  +:+ Fake.q "mail" +:+ ":[" +:+ Fake.q "alice@example.com" +:+ "]}}".

Definition aliceEntry : Entry :=
  {| Attrs :=
       <["name" := AnySlice [AnyString "alice"]]>
         (<["displayname" := AnySlice [AnyString "Alice"]]>
            (<["mail" := AnySlice [AnyString "alice@example.com"]]> ∅)) |}.

Definition decodeEntry : Unmarshal Entry :=
  Fake.decodeTable [(aliceBody, aliceEntry); (Fake.grafanaBody, Fake.grafanaEntry)].

Definition status (code : Z) (body : string) : Response :=
  {| StatusCode := code; RespBody := body |}.

(** [alice] and the confidential client [grafana] exist, [bob] may not be
    deleted, the group [developers] can be; everything else is not found. *)
Definition routes : list (string * string * Response) :=
  [ ("GET", Fake.base +:+ "/v1/person/alice", Fake.ok aliceBody);
    ("GET", Fake.base +:+ "/v1/oauth2/grafana", Fake.ok Fake.grafanaBody);
    ("GET", Fake.base +:+ "/v1/oauth2/grafana/_basic_secret", Fake.ok (Fake.q "s3cr3t"));
    ("POST", Fake.base +:+ "/v1/person", Fake.ok "null");
    ("POST", Fake.base +:+ "/v1/oauth2/_basic", Fake.ok "null");
    ("DELETE", Fake.base +:+ "/v1/group/developers", status 204 "");
    ("DELETE", Fake.base +:+ "/v1/person/bob", status 403 "denied") ].

Definition client : Client nat :=
  {| baseURL := Fake.base; token := "t0k3n"; httpClient := Fake.serve routes |}.

Definition request (method path : string) (body : option payload) : Request :=
  requestOf client method path body.

Definition personState (id : string) : PersonModel.t :=
  {| PersonModel.ID := StringValue id;
     PersonModel.DisplayName := StringNull;
     PersonModel.Mail := ListNull;
     PersonModel.Password := StringValue "hunter2";
     PersonModel.GenerateCredentialResetToken := BoolNull;
     PersonModel.CredentialResetToken := StringNull;
     PersonModel.CredentialResetTokenTTL := Int64Null |}.

Definition oauth2State (name : string) (secret : tfString) : OAuth2BasicModel.t unit :=
  {| OAuth2BasicModel.Name := StringValue name;
     OAuth2BasicModel.DisplayName := StringNull;
     OAuth2BasicModel.Origin := StringNull;
     OAuth2BasicModel.RedirectURIs := ListNull;
     OAuth2BasicModel.ScopeMaps := tt;
     OAuth2BasicModel.ClientSecret := secret |}.

End Scenario.

(** ** Accessor lemmas *)

Lemma fold_appendIfString (v : list any) (acc : list string) :
  fold_left appendIfString v acc = acc ++ stringElements v.
Proof.
  revert acc. induction v as [|x v IH]; intros acc; simpl.
  - by rewrite app_nil_r.
  - rewrite IH. unfold appendIfString, stringElements. simpl.
    destruct (asString x) as [s|]; simpl; [|done].
    by rewrite <- app_assoc.
Qed.

Lemma asString_Some (x : any) (s : string) : asString x = Some s ↔ x = AnyString s.
Proof. destruct x; simpl; split; intros H; by simplify_eq. Qed.

Lemma elem_of_stringElements (v : list any) (s : string) :
  s ∈ stringElements v ↔ AnyString s ∈ v.
Proof.
  unfold stringElements. rewrite list_elem_of_omap. split.
  - intros (x & Hx & Hs). apply asString_Some in Hs. by subst.
  - intros H. exists (AnyString s). done.
Qed.

Lemma stringElements_sublist (v : list any) :
  AnyString <$> stringElements v `sublist_of` v.
Proof.
  induction v as [|x v IH]; simpl; [constructor|].
  unfold stringElements in *. simpl.
  destruct x; simpl; try (by apply sublist_cons).
  by apply sublist_skip.
Qed.

(** *** C1, C2, C10: the accessors *)

(** C1 (as stated, refuted): on an entry without the key ["mail"],
    [GetStringSlice] does not return the allocated empty slice. *)
Lemma GetStringSlice_absent_is_not_empty_slice :
  Attrs (mkEntry ∅) !! "mail" = None
  ∧ GetStringSlice (mkEntry ∅) "mail" ≠ SliceOf [].
Proof. split; [reflexivity | discriminate]. Qed.

(** C1 (amended): for every entry and every key absent from its attribute
    map, [GetString] returns the empty string and [GetStringSlice] returns
    the nil slice, of length zero. *)
Theorem GetString_GetStringSlice_absent (e : Entry) (key : string) :
  Attrs e !! key = None →
  GetString e key = "" ∧ GetStringSlice e key = SliceNil ∧ len (GetStringSlice e key) = 0%nat.
Proof.
  intros Habsent. unfold GetString, GetStringSlice. rewrite Habsent. done.
Qed.

Lemma GetString_GetStringSlice_absent_witness :
  GetString (mkEntry ∅) "mail" = ""
  ∧ GetStringSlice (mkEntry ∅) "mail" = SliceNil
  ∧ len (GetStringSlice (mkEntry ∅) "mail") = 0%nat.
Proof. apply (GetString_GetStringSlice_absent (mkEntry ∅) "mail"). reflexivity. Defined.

(** C2: for every entry and every key whose stored value is a bare scalar
    string [s], [GetString] returns [s] unchanged and [GetStringSlice]
    returns the one-element slice [[s]]. *)
Theorem GetString_GetStringSlice_scalar (e : Entry) (key s : string) :
  Attrs e !! key = Some (AnyString s) →
  GetString e key = s ∧ GetStringSlice e key = SliceOf [s].
Proof.
  intros Hscalar. unfold GetString, GetStringSlice. rewrite Hscalar. done.
Qed.

Lemma GetString_GetStringSlice_scalar_witness :
  GetString (mkEntry {["name" := AnyString "alice"]}) "name" = "alice"
  ∧ GetStringSlice (mkEntry {["name" := AnyString "alice"]}) "name" = SliceOf ["alice"].
Proof.
  apply (GetString_GetStringSlice_scalar (mkEntry {["name" := AnyString "alice"]}) "name" "alice").
  vm_compute. reflexivity.
Defined.

(** C10: for every entry and every key stored as a sequence [v] of values of
    any types, [GetStringSlice] returns exactly the string-typed elements of
    [v] in their order (each string of [v] is kept, nothing else appears, and
    the result embeds in [v] as a subsequence); and [GetString] returns the
    empty string whenever the first element is not a string, whatever
    follows it. *)
Theorem GetStringSlice_heterogeneous (e : Entry) (key : string) (v : list any) :
  Attrs e !! key = Some (AnySlice v) →
  GetStringSlice e key = SliceOf (stringElements v)
  ∧ (∀ s, s ∈ elems (GetStringSlice e key) ↔ AnyString s ∈ v)
  ∧ AnyString <$> elems (GetStringSlice e key) `sublist_of` v
  ∧ (∀ x rest, v = x :: rest → asString x = None → GetString e key = "").
Proof.
  intros Hseq.
  assert (GetStringSlice e key = SliceOf (stringElements v)) as Hslice.
  { unfold GetStringSlice. rewrite Hseq. by rewrite fold_appendIfString. }
  rewrite Hslice. simpl. split_and!.
  - done.
  - intros s. apply elem_of_stringElements.
  - apply stringElements_sublist.
  - intros x rest -> Hx. unfold GetString. rewrite Hseq. simpl. by rewrite Hx.
Qed.

Lemma GetStringSlice_heterogeneous_witness :
  let e := mkEntry {["mail" := AnySlice [AnyBool true; AnyString "a@x"; AnyNil; AnyString "b@x"]]} in
  GetStringSlice e "mail" = SliceOf ["a@x"; "b@x"] ∧ GetString e "mail" = "".
Proof.
  intros e.
  destruct (GetStringSlice_heterogeneous e "mail"
              [AnyBool true; AnyString "a@x"; AnyNil; AnyString "b@x"])
    as (Hslice & _ & _ & Hfirst).
  - vm_compute. reflexivity.
  - split; [exact Hslice | by eapply Hfirst].
Defined.

(** ** Strings: the last byte and the prefix before it *)

Lemma string_length_snoc (p : string) (a : ascii) :
  String.length (p +:+ String a EmptyString) = S (String.length p).
Proof. induction p as [|b p IH]; simpl; [done | by rewrite IH]. Qed.

Lemma string_get_snoc (p : string) (a : ascii) :
  String.get (String.length p) (p +:+ String a EmptyString) = Some a.
Proof. induction p as [|b p IH]; simpl; done. Qed.

Lemma string_substring_snoc (p : string) (a : ascii) :
  String.substring 0 (String.length p) (p +:+ String a EmptyString) = p.
Proof. induction p as [|b p IH]; simpl; [done | by rewrite IH]. Qed.

Lemma string_split_last_cons (o : string) (b a : ascii) :
  String.get (String.length o) (String b o) = Some a →
  String.substring 0 (String.length o) (String b o) +:+ String a EmptyString = String b o.
Proof.
  revert b. induction o as [|b' o IH]; intros b.
  - simpl. by intros [= ->].
  - intros Hget. change (String.get (String.length o) (String b' o) = Some a) in Hget.
    change (String b (String.substring 0 (String.length o) (String b' o) +:+ String a EmptyString)
            = String b (String b' o)).
    by rewrite (IH b' Hget).
Qed.

Lemma string_split_last (o : string) (a : ascii) :
  String.get (String.length o - 1) o = Some a →
  String.substring 0 (String.length o - 1) o +:+ String a EmptyString = o.
Proof.
  destruct o as [|b o]; [done|].
  simpl String.length. rewrite Nat.sub_1_r. simpl Nat.pred.
  apply string_split_last_cons.
Qed.

Lemma endsInSlash_snoc (p : string) : endsInSlash (p +:+ "/") = true.
Proof.
  unfold endsInSlash. rewrite string_length_snoc. simpl. rewrite Nat.sub_0_r.
  rewrite string_get_snoc. by rewrite bool_decide_eq_true_2.
Qed.

Lemma endsInSlash_true (o : string) :
  endsInSlash o = true → ∃ p, o = p +:+ "/".
Proof.
  unfold endsInSlash. intros [_ Hlast%bool_decide_eq_true]%andb_prop.
  eexists. symmetry. by apply string_split_last.
Qed.

Lemma trimTrailingSlash_snoc (p : string) : trimTrailingSlash (p +:+ "/") = p.
Proof.
  unfold trimTrailingSlash. rewrite endsInSlash_snoc, string_length_snoc. simpl.
  rewrite Nat.sub_0_r. apply string_substring_snoc.
Qed.

Lemma trimTrailingSlash_other (o : string) :
  (∀ p, o ≠ p +:+ "/") → trimTrailingSlash o = o.
Proof.
  intros Hno. unfold trimTrailingSlash.
  destruct (endsInSlash o) eqn:Hends; [|done].
  apply endsInSlash_true in Hends as [p ->]. by destruct (Hno p).
Qed.

(** Exactly one slash goes: the trimmed origin is one byte shorter. *)
Lemma trimTrailingSlash_length (o : string) :
  endsInSlash o = true →
  S (String.length (trimTrailingSlash o)) = String.length o.
Proof.
  intros Hends. destruct (endsInSlash_true o Hends) as [p ->].
  by rewrite trimTrailingSlash_snoc, string_length_snoc.
Qed.

(** *** C3: the response check *)

Example checkResponse_204 : checkResponse {| StatusCode := 204; RespBody := "" |} = None.
Proof. reflexivity. Qed.

Example checkResponse_500 :
  checkResponse {| StatusCode := 500; RespBody := "boom" |}
  = Some (errorString "API error (HTTP 500): boom").
Proof. vm_compute. reflexivity. Qed.

Example checkResponse_302_empty :
  checkResponse {| StatusCode := 302; RespBody := "" |}
  = Some (errorString "API error (HTTP 302)").
Proof. vm_compute. reflexivity. Qed.

Lemma checkResponse_None (resp : Response) :
  checkResponse resp = None ↔ 200 ≤ StatusCode resp < 300.
Proof.
  unfold checkResponse.
  destruct (200 <=? StatusCode resp) eqn:Hlo, (StatusCode resp <? 300) eqn:Hhi; simpl;
    repeat case_match; split; try done; lia.
Qed.

(** C3: for every HTTP response the check succeeds exactly when the status
    is in [200,300); it answers the not-found error for 404, the
    unauthorized error for 401, the forbidden error for 403, and for every
    other status a generic failure whose message carries the status and,
    when the body is not empty, ends with the body text. *)
Theorem checkResponse_classifies (resp : Response) :
  (checkResponse resp = None ↔ 200 ≤ StatusCode resp < 300)
  ∧ (StatusCode resp = 404 → checkResponse resp = Some ErrNotFound)
  ∧ (StatusCode resp = 401 → checkResponse resp = Some ErrUnauthorized)
  ∧ (StatusCode resp = 403 → checkResponse resp = Some ErrForbidden)
  ∧ (¬ 200 ≤ StatusCode resp < 300 → StatusCode resp ≠ 404 →
     StatusCode resp ≠ 401 → StatusCode resp ≠ 403 →
     ∃ msg, checkResponse resp = Some (errorString msg)
            ∧ (RespBody resp ≠ "" →
               msg = "API error (HTTP " +:+ pretty (StatusCode resp) +:+ "): " +:+ RespBody resp)
            ∧ (RespBody resp = "" →
               msg = "API error (HTTP " +:+ pretty (StatusCode resp) +:+ ")")).
Proof.
  split; [apply checkResponse_None|].
  destruct resp as [status body]. unfold checkResponse. simpl. split_and!.
  - intros ->. reflexivity.
  - intros ->. reflexivity.
  - intros ->. reflexivity.
  - intros Hout H404 H401 H403.
    assert (((200 <=? status) && (status <? 300)) = false) as ->.
    { apply andb_false_iff. lia. }
    assert ((status =? 404) = false) as -> by lia.
    assert ((status =? 401) = false) as -> by lia.
    assert ((status =? 403) = false) as -> by lia.
    destruct body as [|b body]; simpl; eexists; split_and!; done.
Qed.

(** ** Reasoning about operations *)

Section Sequencing.
Context {World : Type}.

Lemma bind_inr {A B} (m : M World A) (k : A → M World B) n b n' :
  (x <-- m ;; k x) n = (inr b, n') ↔ ∃ a n1, m n = (inr a, n1) ∧ k a n1 = (inr b, n').
Proof.
  unfold bind. split.
  - destruct (m n) as [[err|a] n1]; [done|]. intros Hk. by exists a, n1.
  - intros (a & n1 & -> & Hk). done.
Qed.

Lemma bind_inl {A B} (m : M World A) (k : A → M World B) n err n' :
  (x <-- m ;; k x) n = (inl err, n') ↔
  m n = (inl err, n') ∨ ∃ a n1, m n = (inr a, n1) ∧ k a n1 = (inl err, n').
Proof.
  unfold bind. split.
  - destruct (m n) as [[err1|a] n1]; intros Hk.
    + left. by simplify_eq.
    + right. by exists a, n1.
  - intros [-> | (a & n1 & -> & Hk)]; done.
Qed.

Lemma wrap_inr {A} (prefix : string) (m : M World A) n a n' :
  wrap prefix m n = (inr a, n') ↔ m n = (inr a, n').
Proof. unfold wrap. destruct (m n) as [[err|a1] n1]; split; intros H; by simplify_eq. Qed.

Lemma wrap_inl {A} (prefix : string) (m : M World A) n err n' :
  wrap prefix m n = (inl err, n') ↔ ∃ err0, m n = (inl err0, n') ∧ err = wrapError prefix err0.
Proof.
  unfold wrap. destruct (m n) as [[err1|a1] n1]; split.
  - intros [= <- <-]. by eexists.
  - intros (err0 & [= <- <-] & ->). done.
  - done.
  - by intros (err0 & [=] & _).
Qed.

Lemma wrap_wire {A} (prefix : string) (m : M World A) n :
  wire (wrap prefix m n).2 = wire (m n).2.
Proof. unfold wrap. by destruct (m n) as [[err|a] n1]. Qed.

Lemma liftE_inr {A} (r : error + A) (n : Net World) a n' :
  liftE r n = (inr a, n') ↔ r = inr a ∧ n' = n.
Proof. unfold liftE. split; [by intros [= -> ->] | by intros [-> ->]]. Qed.

Lemma ret_inr {A} (a b : A) (n n' : Net World) :
  ret a n = (inr b, n') ↔ b = a ∧ n' = n.
Proof. unfold ret. split; [by intros [= -> ->] | by intros [-> ->]]. Qed.

Lemma sent_app {A} (m : M World A) (n : Net World) (reqs : list Request) :
  wire (m n).2 = wire n ++ reqs → sent m n = reqs.
Proof. unfold sent. intros ->. by rewrite drop_app_length. Qed.

End Sequencing.

(** ** The operations *)

Section Claims.
Context {World : Type}.
Variable newRequestError : string → string → option error.
Context `{!Unmarshal Entry} `{!Unmarshal string} `{!Unmarshal TokenResult}.
Variable resetTokenRequest : string → option Z → string * string * option payload.

Implicit Types (c : Client World) (n : Net World).

Lemma doRequest_wire c method path body n :
  wire (doRequest newRequestError c method path body n).2
  = wire n ++ match newRequestError method (baseURL c +:+ path) with
              | None => [requestOf c method path body]
              | Some _ => []
              end.
Proof.
  unfold doRequest.
  destruct (newRequestError method (baseURL c +:+ path)); simpl; [by rewrite app_nil_r|].
  destruct (httpClient c _ (world n)) as [[err|resp] w]; simpl; [done|].
  by destruct (checkResponse resp).
Qed.

Lemma doRequest_inr c method path body n resp n' :
  doRequest newRequestError c method path body n = (inr resp, n') →
  wire n' = wire n ++ [requestOf c method path body]
  ∧ 200 ≤ StatusCode resp < 300.
Proof.
  intros Hdo. pose proof (doRequest_wire c method path body n) as Hwire.
  rewrite Hdo in Hwire. simpl in Hwire. revert Hdo. unfold doRequest.
  destruct (newRequestError method (baseURL c +:+ path)); [done|].
  destruct (httpClient c _ (world n)) as [[err|resp1] w]; [done|].
  destruct (checkResponse resp1) eqn:Hcheck; [done|].
  intros [= -> <-]. split; [done|].
  by apply checkResponse_None.
Qed.

(** A [Get] operation: fetch, decode, then build the result from the entry. *)
Lemma get_entry_inr {A} (prefix path : string) (build : Entry → A) c n a n' :
  (resp <-- wrap prefix (doRequest newRequestError c "GET" path None) ;;
   entry <-- liftE (decodeResponse resp) ;;
   ret (build entry)) n = (inr a, n') ↔
  ∃ entry, fetchesEntry newRequestError c path n entry n' ∧ a = build entry.
Proof.
  unfold fetchesEntry. rewrite bind_inr. split.
  - intros (resp & n1 & Hdo%wrap_inr & Hrest).
    apply bind_inr in Hrest as (entry & n2 & [Hdec ->]%liftE_inr & [-> ->]%ret_inr).
    exists entry. split; [by exists resp | done].
  - intros (entry & (resp & Hdo & Hdec) & ->).
    exists resp, n'. split; [by apply wrap_inr|].
    apply bind_inr. exists entry, n'. by rewrite liftE_inr, ret_inr.
Qed.

(** *** C4, C5: reading an OAuth2 client *)

Lemma oauth2ClientOfEntry_IsPublic (entry : Entry) :
  IsPublic (oauth2ClientOfEntry entry) = true ↔ Attrs entry !! "oauth2_rs_basic_secret" = None.
Proof.
  unfold oauth2ClientOfEntry. simpl. rewrite negb_true_iff, bool_decide_eq_false.
  by rewrite <- eq_None_not_Some.
Qed.

(** C4: [GetOAuth2Client] classifies the decoded entry as public exactly
    when the key ["oauth2_rs_basic_secret"] is absent from its attribute
    map, and as confidential whenever the key is present, whatever its
    value (an empty string and an empty sequence included). *)
Theorem GetOAuth2Client_public_iff_secret_key_absent c (name : string) n oc n' :
  GetOAuth2Client newRequestError c name n = (inr oc, n') →
  ∃ entry, fetchesEntry newRequestError c ("/v1/oauth2/" +:+ name) n entry n'
    ∧ (IsPublic oc = true ↔ Attrs entry !! "oauth2_rs_basic_secret" = None)
    ∧ (∀ v, Attrs entry !! "oauth2_rs_basic_secret" = Some v → IsPublic oc = false).
Proof.
  intros (entry & Hfetch & ->)%get_entry_inr. exists entry. split_and!; [done | |].
  - apply oauth2ClientOfEntry_IsPublic.
  - intros v Hv. apply not_true_is_false. rewrite oauth2ClientOfEntry_IsPublic. congruence.
Qed.

(** C5: the origin returned by [GetOAuth2Client] is the stored origin (what
    [GetString] reads under ["oauth2_rs_origin"]) without its last byte when
    that byte is ['/'], so exactly one trailing slash goes, and the stored
    origin unchanged otherwise; ["https://x.example.com/"] decodes to
    ["https://x.example.com"]. *)
Theorem GetOAuth2Client_origin_trimmed c (name : string) n oc n' :
  GetOAuth2Client newRequestError c name n = (inr oc, n') →
  ∃ entry, fetchesEntry newRequestError c ("/v1/oauth2/" +:+ name) n entry n'
    ∧ (∀ p, GetString entry "oauth2_rs_origin" = p +:+ "/" → Origin oc = p)
    ∧ ((∀ p, GetString entry "oauth2_rs_origin" ≠ p +:+ "/") →
       Origin oc = GetString entry "oauth2_rs_origin")
    ∧ (GetString entry "oauth2_rs_origin" = "https://x.example.com/" →
       Origin oc = "https://x.example.com").
Proof.
  intros (entry & Hfetch & ->)%get_entry_inr. exists entry.
  unfold oauth2ClientOfEntry. simpl. split_and!; [done | | |].
  - intros p ->. apply trimTrailingSlash_snoc.
  - apply trimTrailingSlash_other.
  - intros ->. reflexivity.
Qed.

(** *** C6: reading a group *)

Lemma groupOfEntry_Members (entry : Entry) :
  is_nil (Members (groupOfEntry entry)) = false
  ∧ elems (Members (groupOfEntry entry)) = elems (GetStringSlice entry "member").
Proof. unfold groupOfEntry. simpl. by destruct (GetStringSlice entry "member"). Qed.

(** C6: the [Members] of the group returned by [GetGroup] are never the nil
    slice; when the ["member"] attribute is absent, or yields no string
    element, they are the allocated empty slice, and in every case they hold
    the elements [GetStringSlice] read. *)
Theorem GetGroup_members_never_nil c (id : string) n g n' :
  GetGroup newRequestError c id n = (inr g, n') →
  is_nil (Members g) = false
  ∧ ∃ entry, fetchesEntry newRequestError c ("/v1/group/" +:+ id) n entry n'
      ∧ (Attrs entry !! "member" = None → Members g = SliceOf [])
      ∧ (elems (GetStringSlice entry "member") = [] → Members g = SliceOf [])
      ∧ elems (Members g) = elems (GetStringSlice entry "member").
Proof.
  intros (entry & Hfetch & ->)%get_entry_inr.
  destruct (groupOfEntry_Members entry) as [Hnil Helems].
  split; [done|]. exists entry. split_and!; [done | | | done].
  - intros Habsent. unfold groupOfEntry, GetStringSlice. by rewrite Habsent.
  - intros Hempty. rewrite Hempty in Helems.
    destruct (Members (groupOfEntry entry)) as [|l]; [done|]. simpl in Helems. by subst.
Qed.

(** *** C7: what the updates send *)

Lemma updatePersonAttrs_fields (displayName : string) (mail : slice string) :
  optionalField (updatePersonAttrs displayName mail) "displayname"
    (displayName = "") (AnyStrings (SliceOf [displayName]))
  ∧ optionalField (updatePersonAttrs displayName mail) "mail"
      (mail = SliceNil) (AnyStrings mail)
  ∧ (∀ k, k ≠ "displayname" → k ≠ "mail" → updatePersonAttrs displayName mail !! k = None).
Proof.
  unfold optionalField, updatePersonAttrs.
  destruct mail as [|l]; simpl; case_bool_decide; split_and!;
    intros; simplify_map_eq; done.
Qed.

Lemma updateGroupAttrs_fields (description : string) (members : slice string) :
  optionalField (updateGroupAttrs description members) "description"
    (description = "") (AnyStrings (SliceOf [description]))
  ∧ optionalField (updateGroupAttrs description members) "member"
      (members = SliceNil) (AnyStrings members)
  ∧ (∀ k, k ≠ "description" → k ≠ "member" → updateGroupAttrs description members !! k = None).
Proof.
  unfold optionalField, updateGroupAttrs.
  destruct members as [|l]; simpl; case_bool_decide; split_and!;
    intros; simplify_map_eq; done.
Qed.

Lemma updateOAuth2ClientAttrs_fields (displayName origin : string) (redirectURIs : slice string) :
  optionalField (updateOAuth2ClientAttrs displayName origin redirectURIs) "displayname"
    (displayName = "") (AnyStrings (SliceOf [displayName]))
  ∧ optionalField (updateOAuth2ClientAttrs displayName origin redirectURIs) "oauth2_rs_origin"
      (origin = "") (AnyStrings (SliceOf [origin]))
  ∧ optionalField (updateOAuth2ClientAttrs displayName origin redirectURIs)
      "oauth2_rs_origin_landing" (redirectURIs = SliceNil) (AnyStrings redirectURIs)
  ∧ (∀ k, k ≠ "displayname" → k ≠ "oauth2_rs_origin" → k ≠ "oauth2_rs_origin_landing" →
          updateOAuth2ClientAttrs displayName origin redirectURIs !! k = None).
Proof.
  unfold optionalField, updateOAuth2ClientAttrs.
  destruct redirectURIs as [|l]; simpl; repeat case_bool_decide; split_and!;
    intros; simplify_map_eq; done.
Qed.

Lemma bind_ret_wire {A B} (m : M World A) (f : A → B) n :
  wire ((x <-- m ;; ret (f x)) n).2 = wire (m n).2.
Proof. unfold bind, ret. by destruct (m n) as [[err|a] n1]. Qed.

Lemma patch_sendsUpdate (prefix path : string) (attrs : gmap string any) c n :
  sendsUpdate newRequestError
    (resp <-- wrap prefix
                (doRequest newRequestError c "PATCH" path
                   (Some (UpdateBody (NewUpdateRequest attrs)))) ;;
     ret tt)
    c path attrs n.
Proof.
  unfold sendsUpdate.
  erewrite sent_app; last first.
  { rewrite (bind_ret_wire _ (λ _, tt)), wrap_wire. apply doRequest_wire. }
  destruct (newRequestError "PATCH" (baseURL c +:+ path)); split; try done.
  - by intros req ?%elem_of_nil.
  - by intros req ->%list_elem_of_singleton.
Qed.

(** C7: the payload of [UpdatePerson], and likewise of [UpdateGroup] and
    [UpdateOAuth2Client], holds under ["attrs"] only the fields that were
    provided: an empty [displayName], [description] or [origin] and a nil
    [mail], [members] or [redirectURIs] leave their key out of the map, a
    non-empty or non-nil one is stored under its key, and the map has no
    other key.  The operation sends that payload and nothing else. *)
Theorem updates_omit_unset_fields c (id displayName description origin : string)
    (mail members redirectURIs : slice string) n :
  (∃ attrs,
      sendsUpdate newRequestError (UpdatePerson newRequestError c id displayName mail)
        c ("/v1/person/" +:+ id) attrs n
      ∧ optionalField attrs "displayname" (displayName = "") (AnyStrings (SliceOf [displayName]))
      ∧ optionalField attrs "mail" (mail = SliceNil) (AnyStrings mail)
      ∧ (∀ k, k ≠ "displayname" → k ≠ "mail" → attrs !! k = None))
  ∧ (∃ attrs,
      sendsUpdate newRequestError (UpdateGroup newRequestError c id description members)
        c ("/v1/group/" +:+ id) attrs n
      ∧ optionalField attrs "description" (description = "") (AnyStrings (SliceOf [description]))
      ∧ optionalField attrs "member" (members = SliceNil) (AnyStrings members)
      ∧ (∀ k, k ≠ "description" → k ≠ "member" → attrs !! k = None))
  ∧ (∃ attrs,
      sendsUpdate newRequestError
        (UpdateOAuth2Client newRequestError c id displayName origin redirectURIs)
        c ("/v1/oauth2/" +:+ id) attrs n
      ∧ optionalField attrs "displayname" (displayName = "") (AnyStrings (SliceOf [displayName]))
      ∧ optionalField attrs "oauth2_rs_origin" (origin = "") (AnyStrings (SliceOf [origin]))
      ∧ optionalField attrs "oauth2_rs_origin_landing" (redirectURIs = SliceNil)
          (AnyStrings redirectURIs)
      ∧ (∀ k, k ≠ "displayname" → k ≠ "oauth2_rs_origin" → k ≠ "oauth2_rs_origin_landing" →
              attrs !! k = None)).
Proof.
  split_and!.
  - exists (updatePersonAttrs displayName mail).
    split; [apply patch_sendsUpdate | apply updatePersonAttrs_fields].
  - exists (updateGroupAttrs description members).
    split; [apply patch_sendsUpdate | apply updateGroupAttrs_fields].
  - exists (updateOAuth2ClientAttrs displayName origin redirectURIs).
    split; [apply patch_sendsUpdate | apply updateOAuth2ClientAttrs_fields].
Qed.

(** *** C8: creating a confidential client *)

Lemma GetOAuth2BasicSecret_inr c (name : string) n (secret : string) n' :
  GetOAuth2BasicSecret newRequestError c name n = (inr secret, n') ↔
  ∃ resp,
    doRequest newRequestError c "GET" ("/v1/oauth2/" +:+ name +:+ "/_basic_secret") None n
    = (inr resp, n')
    ∧ decodeResponse resp = inr secret.
Proof.
  unfold GetOAuth2BasicSecret. rewrite bind_inr. split.
  - intros (resp & n1 & Hdo%wrap_inr & Hrest).
    apply bind_inr in Hrest as (s1 & n2 & [Hdec ->]%liftE_inr & [-> ->]%ret_inr).
    by exists resp.
  - intros (resp & Hdo & Hdec). exists resp, n'. split; [by apply wrap_inr|].
    apply bind_inr. exists secret, n'. by rewrite liftE_inr, ret_inr.
Qed.

(** C8 (amended): a successful [CreateOAuth2BasicClient] has sent the
    creation request and then fetched the secret with
    [GetOAuth2BasicSecret], in the state the creation left; the result has
    [IsPublic = false] and its [ClientSecret] is the fetched secret, so it is
    non-empty exactly when the fetched secret is.  When the creation
    succeeds and the fetch fails, the call returns the wrapped error of the
    fetch and no client. *)
Theorem CreateOAuth2BasicClient_fetches_secret c (name displayName origin : string) n :
  (∀ oc n',
      CreateOAuth2BasicClient newRequestError c name displayName origin n = (inr oc, n') →
      ∃ resp n1 secret,
        doRequest newRequestError c "POST" "/v1/oauth2/_basic"
          (Some (CreateBody (basicClientRequest name displayName origin))) n = (inr resp, n1)
        ∧ GetOAuth2BasicSecret newRequestError c name n1 = (inr secret, n')
        ∧ IsPublic oc = false
        ∧ ClientSecret oc = secret
        ∧ (ClientSecret oc ≠ "" ↔ secret ≠ "")
        ∧ sent (CreateOAuth2BasicClient newRequestError c name displayName origin) n
          = [requestOf c "POST" "/v1/oauth2/_basic"
               (Some (CreateBody (basicClientRequest name displayName origin)));
             requestOf c "GET" ("/v1/oauth2/" +:+ name +:+ "/_basic_secret") None])
  ∧ (∀ resp n1 err n',
        doRequest newRequestError c "POST" "/v1/oauth2/_basic"
          (Some (CreateBody (basicClientRequest name displayName origin))) n = (inr resp, n1) →
        GetOAuth2BasicSecret newRequestError c name n1 = (inl err, n') →
        CreateOAuth2BasicClient newRequestError c name displayName origin n
        = (inl (wrapError "retrieve client secret: " err), n')).
Proof.
  split.
  - intros oc n' Hcreate. pose proof Hcreate as Hrun.
    unfold CreateOAuth2BasicClient in Hcreate.
    apply bind_inr in Hcreate as (resp & n1 & Hpost%wrap_inr & Hrest).
    apply bind_inr in Hrest as (secret & n2 & Hget%wrap_inr & [-> ->]%ret_inr).
    exists resp, n1, secret. simpl. split_and!; try done.
    apply sent_app. rewrite Hrun. simpl.
    destruct (doRequest_inr _ _ _ _ _ _ _ Hpost) as [Hw1 _].
    apply GetOAuth2BasicSecret_inr in Hget as (resp2 & Hget & _).
    destruct (doRequest_inr _ _ _ _ _ _ _ Hget) as [Hw2 _].
    rewrite Hw2, Hw1. by rewrite <- app_assoc.
  - intros resp n1 err n' Hpost Hget. unfold CreateOAuth2BasicClient, bind.
    assert (wrap "create oauth2 basic client: "
              (doRequest newRequestError c "POST" "/v1/oauth2/_basic"
                 (Some (CreateBody (basicClientRequest name displayName origin)))) n
            = (inr resp, n1)) as -> by by apply wrap_inr.
    assert (wrap "retrieve client secret: " (GetOAuth2BasicSecret newRequestError c name) n1
            = (inl (wrapError "retrieve client secret: " err), n')) as ->.
    { apply wrap_inl. by exists err. }
    done.
Qed.

(** *** C9: the credential reset token *)

(** C9: [CreatePersonCredentialResetToken id ttl] is one exchange, the one
    [resetTokenRequest] makes of the id and the optional TTL; when it
    succeeds and its body decodes, the operation returns the decoded token
    string as it is, and it returns a token in no other case. *)
Theorem CreatePersonCredentialResetToken_verbatim c (id : string) (ttl : option Z) n
    (method path : string) (body : option payload) :
  resetTokenRequest id ttl = (method, path, body) →
  (∀ resp n' result,
      doRequest newRequestError c method path body n = (inr resp, n') →
      unmarshal (RespBody resp) = inr result →
      CreatePersonCredentialResetToken newRequestError resetTokenRequest c id ttl n
      = (inr (Token result), n'))
  ∧ (∀ tok n',
        CreatePersonCredentialResetToken newRequestError resetTokenRequest c id ttl n
        = (inr tok, n') →
        ∃ resp result,
          doRequest newRequestError c method path body n = (inr resp, n')
          ∧ unmarshal (RespBody resp) = inr result
          ∧ tok = Token result)
  ∧ (newRequestError method (baseURL c +:+ path) = None →
     sent (CreatePersonCredentialResetToken newRequestError resetTokenRequest c id ttl) n
     = [requestOf c method path body]).
Proof.
  intros Hreq. unfold CreatePersonCredentialResetToken. rewrite Hreq. split_and!.
  - intros resp n' result Hdo Hdec. apply bind_inr. exists resp, n'.
    split; [by apply wrap_inr|]. apply bind_inr. exists result, n'.
    rewrite liftE_inr, ret_inr. unfold decodeResponse. by rewrite Hdec.
  - intros tok n'. rewrite bind_inr. intros (resp & n1 & Hdo%wrap_inr & Hrest).
    apply bind_inr in Hrest as (result & n2 & [Hdec ->]%liftE_inr & [-> ->]%ret_inr).
    exists resp, result. split_and!; try done.
    revert Hdec. unfold decodeResponse. by destruct (unmarshal (RespBody resp)); intros [= ->].
  - intros Hurl. apply sent_app.
    pose proof (doRequest_wire c method path body n) as Hwire. rewrite Hurl in Hwire.
    rewrite <- Hwire.
    transitivity (wire (wrap "create credential reset token: "
                          (doRequest newRequestError c method path body) n).2);
      [|apply wrap_wire].
    unfold bind, liftE, ret.
    destruct (wrap _ _ n) as [[err|resp] n1]; simpl; [done|].
    by destruct (decodeResponse resp).
Qed.

End Claims.

(** ** Runs against the concrete server *)

#[local] Existing Instance Fake.decodeEntry.
#[local] Existing Instance Fake.decodeString.
#[local] Existing Instance Fake.decodeTokenResult.

Lemma checkResponse_classifies_witness :
  checkResponse {| StatusCode := 500; RespBody := "boom" |}
  = Some (errorString "API error (HTTP 500): boom").
Proof.
  destruct (checkResponse_classifies {| StatusCode := 500; RespBody := "boom" |})
    as (_ & _ & _ & _ & Hother).
  destruct Hother as (msg & -> & Hbody & _); simpl; try lia.
  rewrite Hbody; [vm_compute; reflexivity | discriminate].
Defined.

Lemma GetOAuth2Client_public_iff_secret_key_absent_witness :
  GetOAuth2Client Fake.noRequestError (Fake.client "null") "grafana" Fake.start
  = (inr (Fake.grafanaClient ""), Fake.after [Fake.get "/v1/oauth2/grafana"])
  ∧ ∃ entry,
      fetchesEntry Fake.noRequestError (Fake.client "null") ("/v1/oauth2/" +:+ "grafana")
        Fake.start entry (Fake.after [Fake.get "/v1/oauth2/grafana"])
      ∧ (IsPublic (Fake.grafanaClient "") = true ↔
         Attrs entry !! "oauth2_rs_basic_secret" = None)
      ∧ (∀ v, Attrs entry !! "oauth2_rs_basic_secret" = Some v →
              IsPublic (Fake.grafanaClient "") = false).
Proof.
  split; [vm_compute; reflexivity|].
  apply (GetOAuth2Client_public_iff_secret_key_absent
           Fake.noRequestError (Fake.client "null") "grafana" Fake.start).
  vm_compute. reflexivity.
Defined.

Lemma GetOAuth2Client_origin_trimmed_witness :
  ∃ entry,
    fetchesEntry Fake.noRequestError (Fake.client "null") ("/v1/oauth2/" +:+ "grafana")
      Fake.start entry (Fake.after [Fake.get "/v1/oauth2/grafana"])
    ∧ GetString entry "oauth2_rs_origin" = "https://x.example.com/"
    ∧ Origin (Fake.grafanaClient "") = "https://x.example.com".
Proof.
  destruct (GetOAuth2Client_origin_trimmed
              Fake.noRequestError (Fake.client "null") "grafana" Fake.start
              (Fake.grafanaClient "") (Fake.after [Fake.get "/v1/oauth2/grafana"]))
    as (entry & Hfetch & _ & _ & _).
  - vm_compute. reflexivity.
  - exists entry. split; [exact Hfetch|].
    destruct Hfetch as (resp & Hdo & Hdec).
    vm_compute in Hdo. injection Hdo as <-.
    vm_compute in Hdec. injection Hdec as <-.
    split; vm_compute; reflexivity.
Defined.

Lemma GetGroup_members_never_nil_witness :
  GetGroup Fake.noRequestError (Fake.client "null") "developers" Fake.start
  = (inr {| Group_ID := "developers"; Description := "Dev team"; Members := SliceOf [] |},
     Fake.after [Fake.get "/v1/group/developers"])
  ∧ is_nil (SliceOf ([] : list string)) = false.
Proof.
  split; [vm_compute; reflexivity|].
  apply (GetGroup_members_never_nil
           Fake.noRequestError (Fake.client "null") "developers" Fake.start
           {| Group_ID := "developers"; Description := "Dev team"; Members := SliceOf [] |}
           (Fake.after [Fake.get "/v1/group/developers"])).
  vm_compute. reflexivity.
Defined.

(** Updating [alice] with an empty display name and a nil mail sends an
    empty attribute map. *)
Lemma updates_omit_unset_fields_witness :
  sent (UpdatePerson Fake.noRequestError (Fake.client "null") "alice" "" SliceNil) Fake.start
  = [Fake.patch "/v1/person/alice" ∅].
Proof.
  destruct (updates_omit_unset_fields Fake.noRequestError (Fake.client "null")
              "alice" "" "" "" SliceNil SliceNil SliceNil Fake.start)
    as ((attrs & [_ Hsent] & [Hname _] & [Hmail _] & Hother) & _ & _).
  rewrite Hsent by reflexivity.
  assert (attrs = ∅) as ->; [|reflexivity].
  apply map_eq. intros k. rewrite lookup_empty.
  destruct (decide (k = "displayname")) as [->|]; [by apply Hname|].
  destruct (decide (k = "mail")) as [->|]; [by apply Hmail|].
  by apply Hother.
Defined.

(** C8 (as stated, refuted): the server creates [grafana] and answers the
    secret fetch with the JSON [null], which decodes into a [string] target
    without error and leaves it empty; the call succeeds and the result
    carries an empty secret. *)
Lemma CreateOAuth2BasicClient_may_return_empty_secret :
  ∃ oc n',
    CreateOAuth2BasicClient (Unmarshal1 := Fake.decodeString) Fake.noRequestError
      (Fake.client "null") "grafana" "Grafana" "https://x.example.com" Fake.start
    = (inr oc, n')
    ∧ IsPublic oc = false
    ∧ ClientSecret oc = "".
Proof. eexists _, _. vm_compute. split_and!; reflexivity. Qed.


Lemma CreateOAuth2BasicClient_fetches_secret_witness :
  (∃ n1,
      GetOAuth2BasicSecret Fake.noRequestError (Fake.client (Fake.q "s3cr3t")) "grafana" n1
      = (inr "s3cr3t",
         Fake.after [Fake.post "/v1/oauth2/_basic"
                       (CreateBody (basicClientRequest "grafana" "Grafana" "https://x.example.com"));
                     Fake.get "/v1/oauth2/grafana/_basic_secret"])
      ∧ ClientSecret (Fake.grafanaClient "s3cr3t") = "s3cr3t")
  ∧ CreateOAuth2BasicClient Fake.noRequestError (Fake.client "oops")
      "grafana" "Grafana" "https://x.example.com" Fake.start
    = (inl (wrapError "retrieve client secret: "
              (wrapError "decode response: " Fake.syntaxError)),
       Fake.after [Fake.post "/v1/oauth2/_basic"
                     (CreateBody (basicClientRequest "grafana" "Grafana" "https://x.example.com"));
                   Fake.get "/v1/oauth2/grafana/_basic_secret"]).
Proof.
  split.
  - destruct (CreateOAuth2BasicClient_fetches_secret Fake.noRequestError
                (Fake.client (Fake.q "s3cr3t")) "grafana" "Grafana" "https://x.example.com"
                Fake.start) as [Hok _].
    destruct (Hok (Fake.grafanaClient "s3cr3t")
                (Fake.after [Fake.post "/v1/oauth2/_basic"
                               (CreateBody (basicClientRequest "grafana" "Grafana"
                                              "https://x.example.com"));
                             Fake.get "/v1/oauth2/grafana/_basic_secret"]))
      as (resp & n1 & secret & _ & Hget & _ & Hsecret & _).
    + vm_compute. reflexivity.
    + exists n1. simpl in Hsecret. subst secret. split; [exact Hget | reflexivity].
  - destruct (CreateOAuth2BasicClient_fetches_secret Fake.noRequestError
                (Fake.client "oops") "grafana" "Grafana" "https://x.example.com"
                Fake.start) as [_ Hfail].
    eapply Hfail; vm_compute; reflexivity.
Defined.

Lemma CreatePersonCredentialResetToken_verbatim_witness :
  CreatePersonCredentialResetToken Fake.noRequestError Fake.resetTokenRequest
    (Fake.client "null") "alice" (Some 3600) Fake.start
  = (inr "reset-1234",
     Fake.after [Fake.get "/v1/person/alice/_credential/_update_intent/3600"]).
Proof.
  destruct (CreatePersonCredentialResetToken_verbatim Fake.noRequestError
              Fake.resetTokenRequest (Fake.client "null") "alice" (Some 3600) Fake.start
              "GET" "/v1/person/alice/_credential/_update_intent/3600" None)
    as (Hok & _ & _).
  - vm_compute. reflexivity.
  - apply (Hok (Fake.ok Fake.tokenBody) _ {| Token := "reset-1234" |});
      vm_compute; reflexivity.
Defined.

(** * Further properties of the code *)

(** ** The accessors *)

Lemma stringElements_strings (l : list string) : stringElements (AnyString <$> l) = l.
Proof.
  unfold stringElements. induction l as [|s l IH]; [done|].
  change (s :: omap asString (AnyString <$> l) = s :: l). by rewrite IH.
Qed.

(** X1: a sequence made of strings only is read back whole by
    [GetStringSlice], as an allocated slice, and [GetString] reads its first
    element, or the empty string when it has none. *)
Theorem GetStringSlice_of_strings (e : Entry) (key : string) (l : list string) :
  Attrs e !! key = Some (AnySlice (AnyString <$> l)) →
  GetStringSlice e key = SliceOf l ∧ GetString e key = default "" (head l).
Proof.
  intros Hstored. unfold GetStringSlice, GetString. rewrite Hstored. split.
  - by rewrite fold_appendIfString, stringElements_strings.
  - by destruct l.
Qed.

Lemma GetStringSlice_of_strings_witness :
  GetStringSlice (mkEntry {["mail" := AnySlice (AnyString <$> ["a@x"; "b@x"])]}) "mail"
  = SliceOf ["a@x"; "b@x"]
  ∧ GetString (mkEntry {["mail" := AnySlice (AnyString <$> ["a@x"; "b@x"])]}) "mail"
    = default "" (head ["a@x"; "b@x"]).
Proof.
  apply (GetStringSlice_of_strings
           (mkEntry {["mail" := AnySlice (AnyString <$> ["a@x"; "b@x"])]}) "mail").
  vm_compute. reflexivity.
Defined.

(** X2: whenever [GetString] returns a non-empty string for a key, that
    string is the first element of what [GetStringSlice] returns for it. *)
Theorem GetString_heads_GetStringSlice (e : Entry) (key : string) :
  GetString e key ≠ "" →
  head (elems (GetStringSlice e key)) = Some (GetString e key).
Proof.
  unfold GetString, GetStringSlice.
  destruct (Attrs e !! key) as [[| | | s | v | |]|]; simpl; try done.
  destruct v as [|x v]; [done|].
  rewrite fold_appendIfString. unfold stringElements. simpl.
  by destruct (asString x).
Qed.

Lemma GetString_heads_GetStringSlice_witness :
  head (elems (GetStringSlice
                 (mkEntry {["name" := AnySlice [AnyString "alice"; AnyBool true]]}) "name"))
  = Some (GetString (mkEntry {["name" := AnySlice [AnyString "alice"; AnyBool true]]}) "name").
Proof.
  apply (GetString_heads_GetStringSlice
           (mkEntry {["name" := AnySlice [AnyString "alice"; AnyBool true]]}) "name").
  vm_compute. discriminate.
Defined.

(** X3: [GetStringSlice] returns the nil slice exactly when the key holds
    neither a string, nor a sequence of values, nor an allocated slice of
    strings: a missing key, a null, a number, a boolean, an object. *)
Theorem GetStringSlice_nil_iff (e : Entry) (key : string) :
  is_nil (GetStringSlice e key) = true ↔
  (∀ s, Attrs e !! key ≠ Some (AnyString s))
  ∧ (∀ v, Attrs e !! key ≠ Some (AnySlice v))
  ∧ (∀ l, Attrs e !! key ≠ Some (AnyStrings (SliceOf l))).
Proof.
  unfold GetStringSlice.
  destruct (Attrs e !! key) as [[| | | s | v | | [|l]]|]; simpl; split; try done.
  - intros (Hs & _ & _). by destruct (Hs s).
  - intros (_ & Hv & _). by destruct (Hv v).
  - intros (_ & _ & Hl). by destruct (Hl l).
Qed.

(** X4: [GetString] returns a given non-empty string exactly when the key
    holds that string, or a sequence of values whose first element is that
    string; a slice of strings is never read. *)
Theorem GetString_nonempty_iff (e : Entry) (key s : string) :
  s ≠ "" →
  GetString e key = s ↔
  Attrs e !! key = Some (AnyString s)
  ∨ ∃ rest, Attrs e !! key = Some (AnySlice (AnyString s :: rest)).
Proof.
  intros Hs. unfold GetString. split.
  - destruct (Attrs e !! key) as [[| | | s' | v | |]|]; simpl; try done.
    + intros ->. by left.
    + destruct v as [|[| | | s' | | |] rest]; simpl; try done.
      intros ->. right. by exists rest.
  - intros [-> | [rest ->]]; done.
Qed.

Lemma GetString_nonempty_iff_witness :
  GetString (mkEntry {["name" := AnyStrings (SliceOf ["alice"])]}) "name" ≠ "alice".
Proof.
  intros Hget.
  apply (GetString_nonempty_iff (mkEntry {["name" := AnyStrings (SliceOf ["alice"])]})
           "name" "alice") in Hget; [|discriminate].
  destruct Hget as [Hscalar | [rest Hseq]]; vm_compute in *; discriminate.
Defined.

(** ** The base URL *)

Lemma substring_one_get (n : nat) (s : string) (a : ascii) :
  String.substring n 1 s = String a EmptyString ↔ String.get n s = Some a.
Proof.
  revert n. induction s as [|b s IH]; intros [|n]; simpl; try done.
  destruct s; split; intros H; by simplify_eq.
Qed.

Lemma HasSuffix_slash (s : string) : HasSuffix s "/" = endsInSlash s.
Proof.
  unfold HasSuffix, endsInSlash. simpl String.length. f_equal.
  apply bool_decide_ext, substring_one_get.
Qed.

Lemma TrimSuffix_slash (s : string) : TrimSuffix s "/" = trimTrailingSlash s.
Proof. unfold TrimSuffix, trimTrailingSlash. by rewrite HasSuffix_slash. Qed.

Lemma options_keep_baseURL_token {World} (rts : list (RoundTripper World)) (c : Client World) :
  baseURL (fold_left (fun c opt => opt c) (WithHTTPClient <$> rts) c) = baseURL c
  ∧ token (fold_left (fun c opt => opt c) (WithHTTPClient <$> rts) c) = token c
  ∧ httpClient (fold_left (fun c opt => opt c) (WithHTTPClient <$> rts) c)
    = default (httpClient c) (last rts).
Proof.
  revert c. induction rts as [|rt rts IH]; intros c; [done|].
  change (WithHTTPClient <$> rt :: rts) with (WithHTTPClient rt :: (WithHTTPClient <$> rts)).
  simpl fold_left. destruct (IH (WithHTTPClient rt c)) as (-> & -> & ->).
  split_and!; [done | done |].
  destruct rts as [|rt' rts']; [done|]. rewrite last_cons_cons.
  destruct (last (rt' :: rts')) eqn:Hlast; [done|]. by apply last_None in Hlast.
Qed.

(** X5: [NewClient] drops one trailing slash of the base URL, the same way
    [GetOAuth2Client] drops it from an origin, and [WithHTTPClient] options
    change neither the base URL nor the token: the client built from
    [b ++ "/"] sends every request to [b ++ path], and a base URL without a
    trailing slash gives the same client with or without one added.  The
    round trip is the one of the last [WithHTTPClient] option, if any. *)
Theorem NewClient_drops_trailing_slash {World} (defaultClient : RoundTripper World)
    (b tok : string) (rts : list (RoundTripper World)) :
  baseURL (NewClient defaultClient (b +:+ "/") tok (WithHTTPClient <$> rts)) = b
  ∧ token (NewClient defaultClient (b +:+ "/") tok (WithHTTPClient <$> rts)) = tok
  ∧ httpClient (NewClient defaultClient (b +:+ "/") tok (WithHTTPClient <$> rts))
    = default defaultClient (last rts)
  ∧ (∀ method path body,
        URL (requestOf (NewClient defaultClient (b +:+ "/") tok (WithHTTPClient <$> rts))
               method path body) = b +:+ path)
  ∧ (∀ s opts, NewClient defaultClient s tok opts
               = fold_left (fun c opt => opt c) opts
                   {| baseURL := trimTrailingSlash s; token := tok;
                      httpClient := defaultClient |})
  ∧ ((∀ p, b ≠ p +:+ "/") →
     ∀ opts, NewClient defaultClient b tok opts = NewClient defaultClient (b +:+ "/") tok opts).
Proof.
  unfold NewClient.
  destruct (options_keep_baseURL_token rts
              {| baseURL := TrimSuffix (b +:+ "/") "/"; token := tok;
                 httpClient := defaultClient |}) as (Hbase & Htok & Hrt).
  simpl in Hbase, Htok, Hrt. rewrite TrimSuffix_slash, trimTrailingSlash_snoc in *.
  split_and!; try done.
  - intros method path body. simpl. by rewrite Hbase.
  - intros s opts. by rewrite TrimSuffix_slash.
  - intros Hno opts. by rewrite TrimSuffix_slash, trimTrailingSlash_other.
Qed.

Lemma NewClient_drops_trailing_slash_witness :
  NewClient (Fake.serve []) "https://idm.example.com" "t0k3n" []
  = NewClient (Fake.serve []) "https://idm.example.com/" "t0k3n" [].
Proof.
  destruct (NewClient_drops_trailing_slash (Fake.serve []) "https://idm.example.com" "t0k3n" [])
    as (_ & _ & _ & _ & _ & Hsame).
  apply Hsame. intros p Hp.
  assert (endsInSlash "https://idm.example.com" = true) as Hends
    by (rewrite Hp; apply endsInSlash_snoc).
  vm_compute in Hends. discriminate.
Defined.

(** ** What goes on the wire *)

Section Wire.
Context {World : Type}.
Variable newRequestError : string → string → option error.
Context `{!Unmarshal Entry} `{!Unmarshal string}.

Implicit Types (c : Client World) (n : Net World) (P : Request → Prop).

Lemma sends_ret {A} P (a : A) : sends (World := World) P (ret a).
Proof. intros n. exists []. by rewrite app_nil_r. Qed.

Lemma sends_liftE {A} P (r : error + A) : sends (World := World) P (liftE r).
Proof. intros n. exists []. by rewrite app_nil_r. Qed.

Lemma sends_wrap {A} P (prefix : string) (m : M World A) : sends P m → sends P (wrap prefix m).
Proof. intros Hm n. rewrite wrap_wire. apply Hm. Qed.

Lemma sends_bind {A B} P (m : M World A) (k : A → M World B) :
  sends P m → (∀ a, sends P (k a)) → sends P (x <-- m ;; k x).
Proof.
  intros Hm Hk n. destruct (Hm n) as (reqs1 & Hw1 & HP1). unfold bind.
  destruct (m n) as [[err|a] n1]; simpl in *; [by exists reqs1|].
  destruct (Hk a n1) as (reqs2 & Hw2 & HP2). exists (reqs1 ++ reqs2).
  rewrite Hw2, Hw1, <- app_assoc. split; [done | by apply Forall_app].
Qed.

Lemma sends_doRequest P c (method path : string) (body : option payload) :
  P (requestOf c method path body) → sends P (doRequest newRequestError c method path body).
Proof.
  intros HP n. rewrite doRequest_wire.
  destruct (newRequestError method (baseURL c +:+ path)); eexists; split; try done.
  by apply Forall_singleton.
Qed.

Lemma sends_sent {R} P (m : Net World → R * Net World) n req :
  sends P m → req ∈ drop (length (wire n)) (wire (m n).2) → P req.
Proof.
  intros Hm. destruct (Hm n) as (reqs & -> & HP). rewrite drop_app_length.
  by apply Forall_forall.
Qed.

Lemma builtBy_requestOf c (method path : string) (body : option payload) :
  builtBy c (requestOf c method path body).
Proof. split; [by exists path|]. done. Qed.

End Wire.

Create HintDb wire discriminated.
#[export] Hint Resolve sends_ret sends_liftE sends_wrap sends_bind sends_doRequest
  builtBy_requestOf : wire.
#[export] Hint Extern 1 (isRead _) => split; reflexivity : wire.

Ltac wire_steps :=
  cbv zeta;
  repeat first
    [ apply sends_ret | apply sends_liftE | apply sends_wrap
    | apply sends_doRequest | apply sends_bind; [|intros ?] ];
  auto with wire.

Section WireProperties.
Context {World : Type}.
Variable newRequestError : string → string → option error.
Context `{!Unmarshal Entry} `{!Unmarshal string}.

Implicit Types (c : Client World) (n : Net World) (P : Request → Prop).

Lemma sends_deleteHandler P (delete : M World unit) (summary detail : string) :
  sends P delete → sends P (deleteHandler delete summary detail).
Proof.
  intros Hm n. destruct (Hm n) as (reqs & Hw & HP). exists reqs. split; [|done].
  unfold deleteHandler. destruct (delete n) as [[err|[]] n1]; [|done].
  by destruct (errorsIs err NotFound).
Qed.

Lemma sends_personResource_Read P c (state : PersonModel.t) :
  sends P (GetPerson newRequestError c (ValueString (PersonModel.ID state))) →
  sends P (personResource_Read newRequestError c state).
Proof.
  intros Hm n. destruct (Hm n) as (reqs & Hw & HP). exists reqs. split; [|done].
  unfold personResource_Read. destruct (GetPerson _ _ _ n) as [[err|person] n1]; [|done].
  by destruct (errorsIs err NotFound).
Qed.

Lemma sends_oauth2BasicResource_Read {TSet} P c (state : OAuth2BasicModel.t TSet) :
  (∀ name, sends P (GetOAuth2Client newRequestError c name)) →
  (∀ name, sends P (GetOAuth2BasicSecret newRequestError c name)) →
  sends P (oauth2BasicResource_Read newRequestError c state).
Proof.
  intros Hget Hsecret n.
  destruct (Hget (ValueString (OAuth2BasicModel.Name state)) n) as (reqs1 & Hw1 & HP1).
  unfold oauth2BasicResource_Read.
  destruct (GetOAuth2Client _ _ _ n) as [[err|oc] n1]; simpl in *.
  { exists reqs1. by destruct (errorsIs err NotFound). }
  destruct (IsPublic oc); [by exists reqs1|].
  destruct (IsNull _ || _); [|by exists reqs1].
  destruct (Hsecret (Name oc) n1) as (reqs2 & Hw2 & HP2).
  exists (reqs1 ++ reqs2). split; [|by apply Forall_app].
  destruct (GetOAuth2BasicSecret _ _ _ n1) as [[err|secret] n2]; simpl in *;
    by rewrite Hw2, Hw1, <- app_assoc.
Qed.


(** X7: the operations that read ([GetPerson], [GetGroup],
    [GetOAuth2Client], [GetOAuth2BasicSecret], [GetServiceAccount]) and the
    Read handlers of the person and OAuth2 resources put nothing on the wire
    but [GET] requests without a body; reading an OAuth2 client, secret
    included, never posts to the endpoint that regenerates the secret. *)
Theorem reads_only_get c :
  (∀ id, sends isRead (GetPerson newRequestError c id))
  ∧ (∀ id, sends isRead (GetGroup newRequestError c id))
  ∧ (∀ name, sends isRead (GetOAuth2Client newRequestError c name))
  ∧ (∀ name, sends isRead (GetOAuth2BasicSecret newRequestError c name))
  ∧ (∀ id, sends isRead (GetServiceAccount newRequestError c id))
  ∧ (∀ state, sends isRead (personResource_Read newRequestError c state))
  ∧ (∀ TSet (state : OAuth2BasicModel.t TSet),
        sends isRead (oauth2BasicResource_Read newRequestError c state)).
Proof.
  assert (∀ id, sends isRead (GetPerson newRequestError c id)) as Hperson
    by (intros; unfold GetPerson; wire_steps).
  assert (∀ name, sends isRead (GetOAuth2Client newRequestError c name)) as Hclient
    by (intros; unfold GetOAuth2Client; wire_steps).
  assert (∀ name, sends isRead (GetOAuth2BasicSecret newRequestError c name)) as Hsecret
    by (intros; unfold GetOAuth2BasicSecret; wire_steps).
  split_and!; try done.
  - intros. unfold GetGroup. wire_steps.
  - intros. unfold GetServiceAccount. wire_steps.
  - intros. by apply sends_personResource_Read.
  - intros. by apply sends_oauth2BasicResource_Read.
Qed.

End WireProperties.

(** ** Failures and the sentinels *)

Lemma errorsIs_sentinelError (t t' : sentinel) :
  errorsIs (sentinelError t) t' = true ↔ t = t'.
Proof. destruct t, t'; simpl; split; intros H; by simplify_eq. Qed.

Lemma checkResponse_errorsIs (resp : Response) (err : error) (t : sentinel) :
  checkResponse resp = Some err →
  errorsIs err t = true ↔ StatusCode resp = sentinelStatus t.
Proof.
  unfold checkResponse. destruct ((200 <=? StatusCode resp) && (StatusCode resp <? 300)) eqn:H2xx;
    [done|].
  apply andb_false_iff in H2xx.
  destruct (StatusCode resp =? 404) eqn:H404; [intros [= <-]; destruct t; simpl; split; intros; lia || done|].
  destruct (StatusCode resp =? 401) eqn:H401; [intros [= <-]; destruct t; simpl; split; intros; lia || done|].
  destruct (StatusCode resp =? 403) eqn:H403; [intros [= <-]; destruct t; simpl; split; intros; lia || done|].
  destruct (0 <? String.length (RespBody resp))%nat; intros [= <-]; simpl;
    split; [done | destruct t; simpl; lia | done | destruct t; simpl; lia].
Qed.

Section Failures.
Context {World : Type}.
Variable newRequestError : string → string → option error.
Context `{!Unmarshal Entry} `{!Unmarshal string}.

Implicit Types (c : Client World) (n : Net World) (t : sentinel).

Lemma doRequest_answered c (method path : string) (body : option payload) n resp w :
  newRequestError method (baseURL c +:+ path) = None →
  httpClient c (requestOf c method path body) (world n) = (inr resp, w) →
  doRequest newRequestError c method path body n
  = (match checkResponse resp with Some err => inl err | None => inr resp end,
     {| world := w; wire := wire n ++ [requestOf c method path body] |}).
Proof. intros Hurl Hrt. unfold doRequest. rewrite Hurl, Hrt. by destruct (checkResponse resp). Qed.

Lemma doRequest_failsWith c (method path : string) (body : option payload) n t :
  answers newRequestError c method path body n (sentinelStatus t) →
  failsWith (doRequest newRequestError c method path body) n t.
Proof.
  intros (Hurl & resp & w & Hrt & Hstatus). unfold failsWith.
  rewrite (doRequest_answered _ _ _ _ _ _ _ Hurl Hrt).
  destruct (checkResponse resp) as [err|] eqn:Hcheck.
  - eexists _, _. split; [done|]. by apply (checkResponse_errorsIs resp).
  - apply checkResponse_None in Hcheck. destruct t; simpl in *; lia.
Qed.

Lemma doRequest_failsWith_inv c (method path : string) (body : option payload) n t :
  foreignErrors newRequestError c t →
  failsWith (doRequest newRequestError c method path body) n t →
  answers newRequestError c method path body n (sentinelStatus t).
Proof.
  intros [Hbuild Htrip] (err & n' & Hdo & His). revert Hdo. unfold doRequest, answers.
  destruct (newRequestError method (baseURL c +:+ path)) as [e|] eqn:Hurl.
  { intros [= <- <-]. simpl in His. by rewrite (Hbuild _ _ _ Hurl) in His. }
  fold (requestOf c method path body).
  destruct (httpClient c _ (world n)) as [[e|resp] w] eqn:Hrt.
  { intros [= <- <-]. simpl in His. by rewrite (Htrip _ _ _ _ Hrt) in His. }
  destruct (checkResponse resp) as [e|] eqn:Hcheck; [|done].
  intros [= <- <-]. split; [done|]. exists resp, w. split; [done|].
  by apply (checkResponse_errorsIs resp e).
Qed.

Lemma failsWith_wrap {A} (prefix : string) (m : M World A) n t :
  failsWith (wrap prefix m) n t ↔ failsWith m n t.
Proof.
  unfold failsWith, wrap. destruct (m n) as [[err|a] n1]; split.
  - intros (e & n' & [= <- <-] & His). by eexists _, _.
  - intros (e & n' & [= <- <-] & His). by eexists _, _.
  - by intros (e & n' & [=] & _).
  - by intros (e & n' & [=] & _).
Qed.

Lemma failsWith_bind {A B} (m : M World A) (k : A → M World B) n t :
  failsWith m n t → failsWith (x <-- m ;; k x) n t.
Proof.
  intros (err & n' & Hm & His). exists err, n'. split; [|done]. unfold bind. by rewrite Hm.
Qed.

Lemma failsWith_bind_ret {A B} (m : M World A) (b : B) n t :
  failsWith (x <-- m ;; ret b) n t ↔ failsWith m n t.
Proof.
  split; [|apply failsWith_bind].
  unfold failsWith, bind, ret. destruct (m n) as [[err|a] n1].
  - intros (e & n' & [= <- <-] & His). by eexists _, _.
  - by intros (e & n' & [=] & _).
Qed.

(** One exchange, its error wrapped, and then a fixed result. *)
Lemma exchange_failsWith {B} (prefix method path : string) (body : option payload) (b : B) c n t :
  answers newRequestError c method path body n (sentinelStatus t) →
  failsWith (resp <-- wrap prefix (doRequest newRequestError c method path body) ;; ret b) n t.
Proof. intros Hans. by apply failsWith_bind_ret, failsWith_wrap, doRequest_failsWith. Qed.

Lemma exchange_failsWith_iff {B} (prefix method path : string) (body : option payload) (b : B)
    c n t :
  foreignErrors newRequestError c t →
  failsWith (resp <-- wrap prefix (doRequest newRequestError c method path body) ;; ret b) n t
  ↔ answers newRequestError c method path body n (sentinelStatus t).
Proof.
  intros Hforeign. rewrite failsWith_bind_ret, failsWith_wrap. split.
  - by apply doRequest_failsWith_inv.
  - apply doRequest_failsWith.
Qed.

(** One exchange, its error wrapped, and then more work. *)
Lemma fetch_failsWith {A} (prefix method path : string) (body : option payload)
    (k : Response → M World A) c n t :
  answers newRequestError c method path body n (sentinelStatus t) →
  failsWith (resp <-- wrap prefix (doRequest newRequestError c method path body) ;; k resp) n t.
Proof. intros Hans. by apply failsWith_bind, failsWith_wrap, doRequest_failsWith. Qed.

End Failures.

Lemma checkResponse_sentinel (resp : Response) (t : sentinel) :
  StatusCode resp = sentinelStatus t → checkResponse resp = Some (sentinelError t).
Proof. unfold checkResponse. intros ->. by destruct t. Qed.

Section FailureProperties.
Context {World : Type}.
Variable newRequestError : string → string → option error.
Context `{!Unmarshal Entry} `{!Unmarshal string}.

Implicit Types (c : Client World) (n : Net World) (t : sentinel).

Lemma doRequest_sentinel c (method path : string) (body : option payload) n t :
  answers newRequestError c method path body n (sentinelStatus t) →
  ∃ n', doRequest newRequestError c method path body n = (inl (sentinelError t), n').
Proof.
  intros (Hurl & resp & w & Hrt & Hstatus).
  rewrite (doRequest_answered _ _ _ _ _ _ _ _ Hurl Hrt), (checkResponse_sentinel _ _ Hstatus).
  by eexists.
Qed.

Lemma doRequest_inr_answers c (method path : string) (body : option payload) n resp n' :
  doRequest newRequestError c method path body n = (inr resp, n') →
  answers newRequestError c method path body n (StatusCode resp)
  ∧ 200 ≤ StatusCode resp < 300.
Proof.
  unfold doRequest, answers.
  destruct (newRequestError method (baseURL c +:+ path)); [done|].
  fold (requestOf c method path body).
  destruct (httpClient c _ (world n)) as [[e|resp1] w] eqn:Hrt; [done|].
  destruct (checkResponse resp1) eqn:Hcheck; [done|]. intros [= -> <-].
  split; [|by apply checkResponse_None]. split; [done|]. by exists resp, w.
Qed.

Lemma doRequest_2xx c (method path : string) (body : option payload) n status :
  answers newRequestError c method path body n status → 200 ≤ status < 300 →
  ∃ resp n', doRequest newRequestError c method path body n = (inr resp, n').
Proof.
  intros (Hurl & resp & w & Hrt & <-) H2xx.
  rewrite (doRequest_answered _ _ _ _ _ _ _ _ Hurl Hrt).
  apply checkResponse_None in H2xx as ->. by eexists _, _.
Qed.

(** X8: when the server answers the request of an operation with 404, 401
    or 403, the operation fails with an error that [errors.Is] the matching
    sentinel ([ErrNotFound], [ErrUnauthorized], [ErrForbidden]), through the
    context the operation wraps around it. *)
Theorem status_surfaces_as_sentinel c n t :
  (∀ id, answers newRequestError c "GET" ("/v1/person/" +:+ id) None n (sentinelStatus t) →
         failsWith (GetPerson newRequestError c id) n t)
  ∧ (∀ id, answers newRequestError c "GET" ("/v1/group/" +:+ id) None n (sentinelStatus t) →
           failsWith (GetGroup newRequestError c id) n t)
  ∧ (∀ name, answers newRequestError c "GET" ("/v1/oauth2/" +:+ name) None n (sentinelStatus t) →
             failsWith (GetOAuth2Client newRequestError c name) n t)
  ∧ (∀ name, answers newRequestError c "GET" ("/v1/oauth2/" +:+ name +:+ "/_basic_secret")
               None n (sentinelStatus t) →
             failsWith (GetOAuth2BasicSecret newRequestError c name) n t)
  ∧ (∀ id, answers newRequestError c "GET" ("/v1/service_account/" +:+ id) None n
             (sentinelStatus t) →
           failsWith (GetServiceAccount newRequestError c id) n t)
  ∧ (∀ id displayName mail,
        answers newRequestError c "PATCH" ("/v1/person/" +:+ id)
          (Some (UpdateBody (NewUpdateRequest (updatePersonAttrs displayName mail))))
          n (sentinelStatus t) →
        failsWith (UpdatePerson newRequestError c id displayName mail) n t)
  ∧ (∀ id description members,
        answers newRequestError c "PATCH" ("/v1/group/" +:+ id)
          (Some (UpdateBody (NewUpdateRequest (updateGroupAttrs description members))))
          n (sentinelStatus t) →
        failsWith (UpdateGroup newRequestError c id description members) n t)
  ∧ (∀ name displayName origin redirectURIs,
        answers newRequestError c "PATCH" ("/v1/oauth2/" +:+ name)
          (Some (UpdateBody (NewUpdateRequest
                               (updateOAuth2ClientAttrs displayName origin redirectURIs))))
          n (sentinelStatus t) →
        failsWith (UpdateOAuth2Client newRequestError c name displayName origin redirectURIs) n t)
  ∧ (∀ id, answers newRequestError c "DELETE" ("/v1/person/" +:+ id) None n (sentinelStatus t) →
           failsWith (DeletePerson newRequestError c id) n t)
  ∧ (∀ id, answers newRequestError c "DELETE" ("/v1/group/" +:+ id) None n (sentinelStatus t) →
           failsWith (DeleteGroup newRequestError c id) n t)
  ∧ (∀ name, answers newRequestError c "DELETE" ("/v1/oauth2/" +:+ name) None n
               (sentinelStatus t) →
             failsWith (DeleteOAuth2Client newRequestError c name) n t)
  ∧ (∀ id, answers newRequestError c "DELETE" ("/v1/service_account/" +:+ id) None n
             (sentinelStatus t) →
           failsWith (DeleteServiceAccount newRequestError c id) n t).
Proof.
  split_and!; intros;
    first [ by apply exchange_failsWith | by apply fetch_failsWith ].
Qed.

(** X9: provided neither the URL parser nor the HTTP round trip fails with
    one of the package's own sentinels, a Delete operation fails with an
    error that [errors.Is] a sentinel exactly when its request was built and
    the server answered it with the sentinel's status: [errors.Is(err,
    ErrNotFound)] after [DeletePerson] means a 404 for that person, and
    nothing else. *)
Theorem delete_sentinel_iff_status c n t :
  foreignErrors newRequestError c t →
  (∀ id, failsWith (DeletePerson newRequestError c id) n t ↔
         answers newRequestError c "DELETE" ("/v1/person/" +:+ id) None n (sentinelStatus t))
  ∧ (∀ id, failsWith (DeleteGroup newRequestError c id) n t ↔
           answers newRequestError c "DELETE" ("/v1/group/" +:+ id) None n (sentinelStatus t))
  ∧ (∀ name, failsWith (DeleteOAuth2Client newRequestError c name) n t ↔
             answers newRequestError c "DELETE" ("/v1/oauth2/" +:+ name) None n
               (sentinelStatus t))
  ∧ (∀ rsName groupName,
        failsWith (DeleteOAuth2ScopeMap newRequestError c rsName groupName) n t ↔
        answers newRequestError c "DELETE"
          ("/v1/oauth2/" +:+ rsName +:+ "/_scopemap/" +:+ groupName) None n (sentinelStatus t))
  ∧ (∀ id, failsWith (DeleteServiceAccount newRequestError c id) n t ↔
           answers newRequestError c "DELETE" ("/v1/service_account/" +:+ id) None n
             (sentinelStatus t)).
Proof. intros Hforeign. split_and!; intros; by apply exchange_failsWith_iff. Qed.

End FailureProperties.

(** ** The handlers *)

Section HandlerProperties.
Context {World : Type}.
Variable newRequestError : string → string → option error.
Context `{!Unmarshal Entry} `{!Unmarshal string}.

Implicit Types (c : Client World) (n : Net World) (t : sentinel).




End HandlerProperties.

Section ReadProperties.
Context {World : Type}.
Variable newRequestError : string → string → option error.
Context `{!Unmarshal Entry} `{!Unmarshal string}.

Implicit Types (c : Client World) (n : Net World) (t : sentinel).

(** X11: when the server answers the read of a person or of an OAuth2
    client with 404, the Read handler removes the resource from the state
    and reports no error; when it answers 401 or 403 the handler reports one
    error whose detail names the operation and the sentinel. *)
Theorem read_handlers_on_sentinel_status c n :
  (∀ state,
      (answers newRequestError c "GET" ("/v1/person/" +:+ ValueString (PersonModel.ID state))
         None n 404 →
       (personResource_Read newRequestError c state n).1 = RemoveResource)
      ∧ (∀ t, t ≠ NotFound →
              answers newRequestError c "GET"
                ("/v1/person/" +:+ ValueString (PersonModel.ID state)) None n
                (sentinelStatus t) →
              (personResource_Read newRequestError c state n).1
              = AddError {| Summary := "Error Reading Person";
                            Detail := "Could not read person: get person: "
                                      +:+ Error (sentinelError t) |}))
  ∧ (∀ TSet (state : OAuth2BasicModel.t TSet),
        (answers newRequestError c "GET"
           ("/v1/oauth2/" +:+ ValueString (OAuth2BasicModel.Name state)) None n 404 →
         (oauth2BasicResource_Read newRequestError c state n).1 = RemoveResource)
        ∧ (∀ t, t ≠ NotFound →
                answers newRequestError c "GET"
                  ("/v1/oauth2/" +:+ ValueString (OAuth2BasicModel.Name state)) None n
                  (sentinelStatus t) →
                (oauth2BasicResource_Read newRequestError c state n).1
                = AddError {| Summary := "Error Reading OAuth2 Basic Client";
                              Detail := "Could not read OAuth2 basic client: get oauth2 client: "
                                        +:+ Error (sentinelError t) |})).
Proof.
  split; intros; split.
  - intros Hans.
    destruct (doRequest_sentinel newRequestError c _ _ _ n NotFound Hans) as [n' Hdo].
    unfold personResource_Read, GetPerson, bind, wrap. by rewrite Hdo.
  - intros t Ht [n' Hdo]%doRequest_sentinel.
    unfold personResource_Read, GetPerson, bind, wrap. rewrite Hdo. by destruct t.
  - intros Hans.
    destruct (doRequest_sentinel newRequestError c _ _ _ n NotFound Hans) as [n' Hdo].
    unfold oauth2BasicResource_Read, GetOAuth2Client, bind, wrap. by rewrite Hdo.
  - intros t Ht [n' Hdo]%doRequest_sentinel.
    unfold oauth2BasicResource_Read, GetOAuth2Client, bind, wrap. rewrite Hdo. by destruct t.
Qed.

Lemma listOrNull_cases (s : slice string) :
  (elems s = [] ∧ listOrNull s = ListNull)
  ∨ (elems s ≠ [] ∧ listOrNull s = ListValue (elems s)).
Proof.
  unfold listOrNull, len. destruct (elems s) as [|x l]; simpl; [by left | by right].
Qed.

(** X12: the state a person Read stores has a known id and display name, read
    from the entry by [GetString]; its mail is null when the entry yields no
    mail string and is the list of those strings otherwise, so it is never
    a known empty list; the password, the reset token and its settings are
    the ones of the prior state. *)
Theorem personResource_Read_state c (state stored : PersonModel.t) n n' :
  personResource_Read newRequestError c state n = (StateSet stored, n') →
  ∃ entry,
    fetchesEntry newRequestError c ("/v1/person/" +:+ ValueString (PersonModel.ID state))
      n entry n'
    ∧ PersonModel.ID stored = StringValue (GetString entry "name")
    ∧ PersonModel.DisplayName stored = StringValue (GetString entry "displayname")
    ∧ (PersonModel.Mail stored = ListNull ↔ elems (GetStringSlice entry "mail") = [])
    ∧ (elems (GetStringSlice entry "mail") ≠ [] →
       PersonModel.Mail stored = ListValue (elems (GetStringSlice entry "mail")))
    ∧ PersonModel.Mail stored ≠ ListValue []
    ∧ PersonModel.Password stored = PersonModel.Password state
    ∧ PersonModel.GenerateCredentialResetToken stored
      = PersonModel.GenerateCredentialResetToken state
    ∧ PersonModel.CredentialResetToken stored = PersonModel.CredentialResetToken state
    ∧ PersonModel.CredentialResetTokenTTL stored = PersonModel.CredentialResetTokenTTL state.
Proof.
  unfold personResource_Read.
  destruct (GetPerson _ _ _ n) as [[err|person] n1] eqn:Hget.
  { by destruct (errorsIs err NotFound). }
  intros [= <- <-]. apply get_entry_inr in Hget as (entry & Hfetch & ->).
  exists entry. simpl.
  destruct (listOrNull_cases (GetStringSlice entry "mail")) as [[Hnone ->] | [Hsome ->]];
    split_and!; try done.
  - by intros [= ?].
Qed.

End ReadProperties.

Section OAuth2ReadProperties.
Context {World : Type} {TSet : Type}.
Variable newRequestError : string → string → option error.
Context `{!Unmarshal Entry} `{!Unmarshal string}.

Implicit Types (c : Client World) (n : Net World) (state stored : OAuth2BasicModel.t TSet).

Lemma secret_missing_iff (v : tfString) :
  IsNull v || bool_decide (ValueString v = "") = true ↔ ValueString v = "".
Proof.
  destruct v as [| |s]; simpl; try done.
  by rewrite bool_decide_eq_true.
Qed.

(** X13: once [GetOAuth2Client] has answered, the OAuth2 Read handler
    rejects a public client with the "Invalid Client Type" error and sends
    nothing more; for a confidential client it always stores a state,
    whether the secret can be fetched or not, with the name, display name
    and origin the server returned, redirect URIs that are null or a
    non-empty list, and the scope maps of the prior state. *)
Theorem oauth2BasicResource_Read_outcome c state n (oc : OAuth2Client) (n1 : Net World) :
  GetOAuth2Client newRequestError c (ValueString (OAuth2BasicModel.Name state)) n
  = (inr oc, n1) →
  (IsPublic oc = true →
   oauth2BasicResource_Read newRequestError c state n = (AddError invalidClientType, n1))
  ∧ (IsPublic oc = false →
     ∃ stored n',
       oauth2BasicResource_Read newRequestError c state n = (StateSet stored, n')
       ∧ OAuth2BasicModel.Name stored = StringValue (Name oc)
       ∧ OAuth2BasicModel.DisplayName stored = StringValue (DisplayName oc)
       ∧ OAuth2BasicModel.Origin stored = StringValue (Origin oc)
       ∧ OAuth2BasicModel.RedirectURIs stored = listOrNull (RedirectURIs oc)
       ∧ OAuth2BasicModel.RedirectURIs stored ≠ ListValue []
       ∧ OAuth2BasicModel.ScopeMaps stored = OAuth2BasicModel.ScopeMaps state).
Proof.
  intros Hget. unfold oauth2BasicResource_Read. rewrite Hget. split; intros ->; [done|].
  assert (listOrNull (RedirectURIs oc) ≠ ListValue []) as Hlist.
  { destruct (listOrNull_cases (RedirectURIs oc)) as [[_ ->] | [Hsome ->]]; [done|].
    by intros [= ?]. }
  simpl. destruct (IsNull _ || _).
  - destruct (GetOAuth2BasicSecret _ _ _ n1) as [[err|secret] n2];
      eexists _, _; split_and!; done.
  - eexists _, _; split_and!; done.
Qed.

(** X14: for a confidential client, a non-empty secret in the prior state
    is kept and no secret is fetched (the Read is the one exchange of
    [GetOAuth2Client]).  When the prior state has no secret (null, unknown
    or empty), the handler fetches it once, under the name the server
    returned, stores it if the fetch succeeds and keeps the prior value if
    it fails. *)
Theorem oauth2BasicResource_Read_secret c state n (oc : OAuth2Client) (n1 : Net World) :
  GetOAuth2Client newRequestError c (ValueString (OAuth2BasicModel.Name state)) n
  = (inr oc, n1) →
  IsPublic oc = false →
  (∀ secret, OAuth2BasicModel.ClientSecret state = StringValue secret → secret ≠ "" →
             ∃ stored,
               oauth2BasicResource_Read newRequestError c state n = (StateSet stored, n1)
               ∧ OAuth2BasicModel.ClientSecret stored = StringValue secret)
  ∧ (ValueString (OAuth2BasicModel.ClientSecret state) = "" →
     ∀ fetched n2,
       GetOAuth2BasicSecret newRequestError c (Name oc) n1 = (fetched, n2) →
       ∃ stored,
         oauth2BasicResource_Read newRequestError c state n = (StateSet stored, n2)
         ∧ OAuth2BasicModel.ClientSecret stored
           = match fetched with
             | inr secret => StringValue secret
             | inl _ => OAuth2BasicModel.ClientSecret state
             end).
Proof.
  intros Hget Hconf. unfold oauth2BasicResource_Read. rewrite Hget, Hconf. simpl. split.
  - intros secret Hstate Hne.
    assert (IsNull (OAuth2BasicModel.ClientSecret state)
            || bool_decide (ValueString (OAuth2BasicModel.ClientSecret state) = "") = false)
      as ->.
    { apply not_true_is_false. rewrite secret_missing_iff, Hstate. done. }
    by eexists.
  - intros Hmissing fetched n2 Hfetch.
    apply secret_missing_iff in Hmissing as ->. rewrite Hfetch.
    destruct fetched; by eexists.
Qed.

End OAuth2ReadProperties.

(** ** Creating and reading back *)

Section CreateProperties.
Context {World : Type}.
Variable newRequestError : string → string → option error.
Context `{!Unmarshal Entry} `{!Unmarshal string}.

Implicit Types (c : Client World) (n : Net World) (t : sentinel).

Lemma doRequest_succeeds_iff c (method path : string) (body : option payload) n :
  (∃ resp n', doRequest newRequestError c method path body n = (inr resp, n'))
  ↔ ∃ status, answers newRequestError c method path body n status ∧ 200 ≤ status < 300.
Proof.
  split.
  - intros (resp & n' & [Hans H2xx]%doRequest_inr_answers). by exists (StatusCode resp).
  - intros (status & Hans & H2xx). by eapply doRequest_2xx.
Qed.

Lemma exchange_succeeds_iff {B} (prefix method path : string) (body : option payload) (b b' : B)
    c n :
  (∃ n', (resp <-- wrap prefix (doRequest newRequestError c method path body) ;; ret b) n
         = (inr b', n'))
  ↔ b' = b
    ∧ ∃ status, answers newRequestError c method path body n status ∧ 200 ≤ status < 300.
Proof.
  rewrite <- doRequest_succeeds_iff. split.
  - intros (n' & (resp & n1 & Hdo%wrap_inr & [-> ->]%ret_inr)%bind_inr).
    split; [done | by exists resp, n1].
  - intros [-> (resp & n' & Hdo)]. exists n'. apply bind_inr. exists resp, n'.
    by rewrite wrap_inr, ret_inr.
Qed.

(** X15: [CreatePerson], [CreateGroup] and [CreateOAuth2PublicClient] never
    read the body of the response: each returns a result exactly when its
    [POST] could be built and the server answered it with a status in
    [200,300), and the result is then made of the arguments only, with nil
    mail, nil members, or an empty secret and [IsPublic = true]. *)
Theorem creates_echo_their_arguments c n :
  (∀ name displayName person,
      (∃ n', CreatePerson newRequestError c name displayName n = (inr person, n')) ↔
      person = {| Person_ID := name; Person_DisplayName := displayName; Mail := SliceNil |}
      ∧ ∃ status,
          answers newRequestError c "POST" "/v1/person"
            (Some (CreateBody
                     (NewCreateRequest
                        (<["name" := AnyStrings (SliceOf [name])]>
                           (<["displayname" := AnyStrings (SliceOf [displayName])]> ∅)))))
            n status
          ∧ 200 ≤ status < 300)
  ∧ (∀ name description group,
        (∃ n', CreateGroup newRequestError c name description n = (inr group, n')) ↔
        group = {| Group_ID := name; Description := description; Members := SliceNil |}
        ∧ ∃ status,
            answers newRequestError c "POST" "/v1/group"
              (Some (CreateBody (NewCreateRequest (createGroupAttrs name description))))
              n status
            ∧ 200 ≤ status < 300)
  ∧ (∀ name displayName origin oc,
        (∃ n', CreateOAuth2PublicClient newRequestError c name displayName origin n
               = (inr oc, n')) ↔
        oc = {| Name := name; DisplayName := displayName; Origin := origin;
                RedirectURIs := SliceNil; ScopeMaps := ∅; ClientID := name;
                ClientSecret := ""; IsPublic := true |}
        ∧ ∃ status,
            answers newRequestError c "POST" "/v1/oauth2/_public"
              (Some (CreateBody
                       (NewCreateRequest
                          (<["name" := AnyStrings (SliceOf [name])]>
                             (<["displayname" := AnyStrings (SliceOf [displayName])]>
                                (<["oauth2_rs_origin_landing" := AnyStrings (SliceOf [origin])]>
                                   ∅))))))
              n status
            ∧ 200 ≤ status < 300).
Proof. split_and!; intros; apply exchange_succeeds_iff. Qed.

(** X16: the payload of [CreateGroup] always holds the name, as a
    one-element sequence; it holds the description, likewise, exactly when
    the description is not empty, and it holds nothing else. *)
Theorem createGroupAttrs_fields (name description : string) :
  createGroupAttrs name description !! "name" = Some (AnyStrings (SliceOf [name]))
  ∧ optionalField (createGroupAttrs name description) "description"
      (description = "") (AnyStrings (SliceOf [description]))
  ∧ (∀ k, k ≠ "name" → k ≠ "description" → createGroupAttrs name description !! k = None).
Proof.
  unfold optionalField, createGroupAttrs. simpl. case_bool_decide; split_and!;
    intros; simplify_map_eq; done.
Qed.

(** X17: when the creation request of [CreateOAuth2BasicClient] fails, the
    call fails with that error under the context of the creation and the
    secret is not fetched: nothing but the [POST] may be on the wire.  When
    the creation succeeds and the secret endpoint answers 404, 401 or 403,
    the call fails with an error that [errors.Is] the sentinel, although the
    client now exists on the server. *)
Theorem CreateOAuth2BasicClient_failures c (name displayName origin : string) n :
  (∀ err n1,
      doRequest newRequestError c "POST" "/v1/oauth2/_basic"
        (Some (CreateBody (basicClientRequest name displayName origin))) n = (inl err, n1) →
      CreateOAuth2BasicClient newRequestError c name displayName origin n
      = (inl (wrapError "create oauth2 basic client: " err), n1)
      ∧ ∀ req,
          req ∈ sent (CreateOAuth2BasicClient newRequestError c name displayName origin) n →
          req = requestOf c "POST" "/v1/oauth2/_basic"
                  (Some (CreateBody (basicClientRequest name displayName origin))))
  ∧ (∀ resp n1 t,
        doRequest newRequestError c "POST" "/v1/oauth2/_basic"
          (Some (CreateBody (basicClientRequest name displayName origin))) n = (inr resp, n1) →
        answers newRequestError c "GET" ("/v1/oauth2/" +:+ name +:+ "/_basic_secret") None n1
          (sentinelStatus t) →
        failsWith (CreateOAuth2BasicClient newRequestError c name displayName origin) n t
        ∧ sent (CreateOAuth2BasicClient newRequestError c name displayName origin) n
          = [requestOf c "POST" "/v1/oauth2/_basic"
               (Some (CreateBody (basicClientRequest name displayName origin)));
             requestOf c "GET" ("/v1/oauth2/" +:+ name +:+ "/_basic_secret") None]).
Proof.
  split.
  - intros err n1 Hpost.
    assert (CreateOAuth2BasicClient newRequestError c name displayName origin n
            = (inl (wrapError "create oauth2 basic client: " err), n1)) as Hrun.
    { unfold CreateOAuth2BasicClient, bind, wrap. by rewrite Hpost. }
    split; [done|]. intros req. unfold sent. rewrite Hrun. simpl.
    pose proof (doRequest_wire newRequestError c "POST" "/v1/oauth2/_basic"
                  (Some (CreateBody (basicClientRequest name displayName origin))) n) as Hwire.
    rewrite Hpost in Hwire. simpl in Hwire. rewrite Hwire, drop_app_length.
    destruct (newRequestError _ _); [by intros ?%elem_of_nil|].
    by intros ->%list_elem_of_singleton.
  - intros resp n1 t Hpost Hans.
    destruct (doRequest_sentinel newRequestError c _ _ _ n1 t Hans) as [n2 Hget].
    assert (CreateOAuth2BasicClient newRequestError c name displayName origin n
            = (inl (wrapError "retrieve client secret: "
                      (wrapError "get oauth2 basic secret: " (sentinelError t))), n2)) as Hrun.
    { unfold CreateOAuth2BasicClient, GetOAuth2BasicSecret, bind, wrap.
      by rewrite Hpost, Hget. }
    split.
    + eexists _, n2. split; [exact Hrun|]. simpl. by apply errorsIs_sentinelError.
    + apply sent_app. rewrite Hrun. simpl.
      destruct (doRequest_inr newRequestError _ _ _ _ _ _ _ Hpost) as [Hw1 _].
      pose proof (doRequest_wire newRequestError c "GET"
                    ("/v1/oauth2/" +:+ name +:+ "/_basic_secret") None n1) as Hw2.
      rewrite Hget in Hw2. simpl in Hw2. destruct Hans as [Hurl _]. rewrite Hurl in Hw2.
      by rewrite Hw2, Hw1, <- app_assoc.
Qed.

(** X18: the client [GetOAuth2Client] returns never carries a secret or
    scope maps; its client id is its name, and its name is the ["name"]
    attribute of the decoded entry, or the ["oauth2_rs_name"] attribute when
    ["name"] reads as the empty string; its redirect URIs are what
    [GetStringSlice] reads under ["oauth2_rs_origin_landing"], nil when the
    key is absent. *)
Theorem GetOAuth2Client_result c (name : string) n (oc : OAuth2Client) n' :
  GetOAuth2Client newRequestError c name n = (inr oc, n') →
  ∃ entry,
    fetchesEntry newRequestError c ("/v1/oauth2/" +:+ name) n entry n'
    ∧ ClientSecret oc = ""
    ∧ ScopeMaps oc = ∅
    ∧ ClientID oc = Name oc
    ∧ (GetString entry "name" ≠ "" → Name oc = GetString entry "name")
    ∧ (GetString entry "name" = "" → Name oc = GetString entry "oauth2_rs_name")
    ∧ DisplayName oc = GetString entry "displayname"
    ∧ RedirectURIs oc = GetStringSlice entry "oauth2_rs_origin_landing"
    ∧ (Attrs entry !! "oauth2_rs_origin_landing" = None → RedirectURIs oc = SliceNil).
Proof.
  intros (entry & Hfetch & ->)%get_entry_inr. exists entry.
  unfold oauth2ClientOfEntry. simpl. split_and!; try done.
  - intros Hname. by rewrite bool_decide_eq_false_2.
  - intros Hname. by rewrite bool_decide_eq_true_2.
  - intros Habsent. unfold GetStringSlice. by rewrite Habsent.
Qed.

End CreateProperties.

(** ** Runs against the second server *)

Lemma Scenario_foreignErrors (t : sentinel) :
  foreignErrors Fake.noRequestError Scenario.client t.
Proof.
  split; [done|]. intros req w err w'. unfold Scenario.client, httpClient, Fake.serve.
  by case_match.
Qed.

Lemma status_surfaces_as_sentinel_witness :
  failsWith (GetPerson (Unmarshal0 := Scenario.decodeEntry) Fake.noRequestError
               Scenario.client "ghost") Fake.start NotFound.
Proof.
  destruct (status_surfaces_as_sentinel (Unmarshal0 := Scenario.decodeEntry)
              Fake.noRequestError Scenario.client Fake.start NotFound) as (Hperson & _).
  apply Hperson. split; [done|]. eexists _, _. vm_compute. split; reflexivity.
Defined.

Lemma delete_sentinel_iff_status_witness :
  failsWith (DeletePerson Fake.noRequestError Scenario.client "bob") Fake.start Forbidden
  ∧ ¬ failsWith (DeletePerson Fake.noRequestError Scenario.client "bob") Fake.start NotFound.
Proof.
  destruct (delete_sentinel_iff_status Fake.noRequestError Scenario.client Fake.start Forbidden
              (Scenario_foreignErrors Forbidden)) as (Hforbidden & _).
  destruct (delete_sentinel_iff_status Fake.noRequestError Scenario.client Fake.start NotFound
              (Scenario_foreignErrors NotFound)) as (Hmissing & _).
  split.
  - apply Hforbidden. split; [done|]. eexists _, _. vm_compute. split; reflexivity.
  - intros (_ & resp & w & Htrip & Hstatus)%Hmissing.
    vm_compute in Htrip. injection Htrip as <- _. vm_compute in Hstatus. discriminate.
Defined.


Lemma read_handlers_on_sentinel_status_witness :
  (personResource_Read (Unmarshal0 := Scenario.decodeEntry) Fake.noRequestError
     Scenario.client (Scenario.personState "ghost") Fake.start).1 = RemoveResource.
Proof.
  destruct (read_handlers_on_sentinel_status (Unmarshal0 := Scenario.decodeEntry)
              (Unmarshal1 := Fake.decodeString)
              Fake.noRequestError Scenario.client Fake.start) as (Hperson & _).
  destruct (Hperson (Scenario.personState "ghost")) as [Hremove _].
  apply Hremove. split; [done|]. eexists _, _. vm_compute. split; reflexivity.
Defined.

Lemma personResource_Read_state_witness :
  ∃ entry,
    fetchesEntry (Unmarshal0 := Scenario.decodeEntry) Fake.noRequestError Scenario.client
      "/v1/person/alice" Fake.start entry
      (Fake.after [Scenario.request "GET" "/v1/person/alice" None])
    ∧ GetStringSlice entry "mail" = SliceOf ["alice@example.com"].
Proof.
  destruct (personResource_Read_state (Unmarshal0 := Scenario.decodeEntry)
              Fake.noRequestError Scenario.client (Scenario.personState "alice")
              {| PersonModel.ID := StringValue "alice";
                 PersonModel.DisplayName := StringValue "Alice";
                 PersonModel.Mail := ListValue ["alice@example.com"];
                 PersonModel.Password := StringValue "hunter2";
                 PersonModel.GenerateCredentialResetToken := BoolNull;
                 PersonModel.CredentialResetToken := StringNull;
                 PersonModel.CredentialResetTokenTTL := Int64Null |}
              Fake.start (Fake.after [Scenario.request "GET" "/v1/person/alice" None]))
    as (entry & Hfetch & _).
  - vm_compute. reflexivity.
  - exists entry. split; [exact Hfetch|].
    destruct Hfetch as (resp & Hdo & Hdec).
    vm_compute in Hdo. injection Hdo as <-.
    vm_compute in Hdec. injection Hdec as <-.
    vm_compute. reflexivity.
Defined.

Lemma oauth2BasicResource_Read_outcome_witness :
  ∃ stored n',
    oauth2BasicResource_Read (Unmarshal0 := Scenario.decodeEntry)
      (Unmarshal1 := Fake.decodeString) Fake.noRequestError Scenario.client
      (Scenario.oauth2State "grafana" (StringValue "kept")) Fake.start
    = (StateSet stored, n')
    ∧ OAuth2BasicModel.Origin stored = StringValue "https://x.example.com"
    ∧ OAuth2BasicModel.RedirectURIs stored = ListNull.
Proof.
  destruct (oauth2BasicResource_Read_outcome (Unmarshal0 := Scenario.decodeEntry)
              (Unmarshal1 := Fake.decodeString) Fake.noRequestError Scenario.client
              (Scenario.oauth2State "grafana" (StringValue "kept")) Fake.start
              (Fake.grafanaClient "")
              (Fake.after [Scenario.request "GET" "/v1/oauth2/grafana" None]))
    as [_ Hconfidential].
  - vm_compute. reflexivity.
  - destruct Hconfidential as (stored & n' & Hread & _ & _ & Horigin & Huris & _);
      [reflexivity|].
    exists stored, n'. split_and!; done.
Defined.

Lemma oauth2BasicResource_Read_secret_witness :
  (∃ stored,
      oauth2BasicResource_Read (Unmarshal0 := Scenario.decodeEntry)
        (Unmarshal1 := Fake.decodeString) Fake.noRequestError Scenario.client
        (Scenario.oauth2State "grafana" StringNull) Fake.start
      = (StateSet stored,
         Fake.after [Scenario.request "GET" "/v1/oauth2/grafana" None;
                     Scenario.request "GET" "/v1/oauth2/grafana/_basic_secret" None])
      ∧ OAuth2BasicModel.ClientSecret stored = StringValue "s3cr3t")
  ∧ (∃ stored,
        oauth2BasicResource_Read (Unmarshal0 := Scenario.decodeEntry)
          (Unmarshal1 := Fake.decodeString) Fake.noRequestError Scenario.client
          (Scenario.oauth2State "grafana" (StringValue "kept")) Fake.start
        = (StateSet stored, Fake.after [Scenario.request "GET" "/v1/oauth2/grafana" None])
        ∧ OAuth2BasicModel.ClientSecret stored = StringValue "kept").
Proof.
  split.
  - destruct (oauth2BasicResource_Read_secret (Unmarshal0 := Scenario.decodeEntry)
                (Unmarshal1 := Fake.decodeString) Fake.noRequestError Scenario.client
                (Scenario.oauth2State "grafana" StringNull) Fake.start
                (Fake.grafanaClient "")
                (Fake.after [Scenario.request "GET" "/v1/oauth2/grafana" None]))
      as [_ Hfetch]; [vm_compute; reflexivity | reflexivity |].
    apply (Hfetch eq_refl (inr "s3cr3t")). vm_compute. reflexivity.
  - destruct (oauth2BasicResource_Read_secret (Unmarshal0 := Scenario.decodeEntry)
                (Unmarshal1 := Fake.decodeString) Fake.noRequestError Scenario.client
                (Scenario.oauth2State "grafana" (StringValue "kept")) Fake.start
                (Fake.grafanaClient "")
                (Fake.after [Scenario.request "GET" "/v1/oauth2/grafana" None]))
      as [Hkept _]; [vm_compute; reflexivity | reflexivity |].
    apply Hkept; [reflexivity | discriminate].
Defined.

Lemma creates_echo_their_arguments_witness :
  ∃ n', CreatePerson Fake.noRequestError Scenario.client "carol" "Carol" Fake.start
        = (inr {| Person_ID := "carol"; Person_DisplayName := "Carol"; Mail := SliceNil |}, n').
Proof.
  destruct (creates_echo_their_arguments Fake.noRequestError Scenario.client Fake.start)
    as (Hperson & _).
  apply Hperson. split; [done|]. exists 200. split; [|lia]. split; [done|].
  eexists _, _. vm_compute. split; reflexivity.
Defined.

Lemma CreateOAuth2BasicClient_failures_witness :
  failsWith (CreateOAuth2BasicClient (Unmarshal1 := Fake.decodeString) Fake.noRequestError
               Scenario.client "orphan" "Orphan" "https://o.example.com")
    Fake.start NotFound.
Proof.
  destruct (CreateOAuth2BasicClient_failures (Unmarshal1 := Fake.decodeString)
              Fake.noRequestError Scenario.client "orphan" "Orphan" "https://o.example.com"
              Fake.start) as [_ Hfetch].
  eapply Hfetch.
  - vm_compute. reflexivity.
  - split; [done|]. eexists _, _. vm_compute. split; reflexivity.
Defined.

Lemma GetOAuth2Client_result_witness :
  ∃ entry,
    fetchesEntry (Unmarshal0 := Scenario.decodeEntry) Fake.noRequestError Scenario.client
      ("/v1/oauth2/" +:+ "grafana") Fake.start entry
      (Fake.after [Scenario.request "GET" "/v1/oauth2/grafana" None])
    ∧ ClientSecret (Fake.grafanaClient "") = ""
    ∧ ClientID (Fake.grafanaClient "") = Name (Fake.grafanaClient "").
Proof.
  destruct (GetOAuth2Client_result (Unmarshal0 := Scenario.decodeEntry)
              Fake.noRequestError Scenario.client "grafana" Fake.start
              (Fake.grafanaClient "")
              (Fake.after [Scenario.request "GET" "/v1/oauth2/grafana" None]))
    as (entry & Hfetch & Hsecret & _ & Hid & _).
  - vm_compute. reflexivity.
  - by exists entry.
Defined.

(** ** More on what is read and what is sent *)

Lemma string_app_assoc (a b c : string) : (a +:+ b) +:+ c = a +:+ (b +:+ c).
Proof.
  induction a as [|x a IH]; [done|].
  change (String x ((a +:+ b) +:+ c) = String x (a +:+ (b +:+ c))). by rewrite IH.
Qed.

(** X19: the normalisation of an origin removes one byte at most: the
    result is the origin itself, or the origin without its final slash; an
    origin that ends in two slashes keeps one, so normalising twice can differ
    from normalising once. *)
Theorem trimTrailingSlash_at_most_one (o : string) :
  (trimTrailingSlash o = o ∨ o = trimTrailingSlash o +:+ "/")
  ∧ (∀ p, trimTrailingSlash (p +:+ "//") = p +:+ "/")
  ∧ (∀ p, trimTrailingSlash (trimTrailingSlash (p +:+ "//")) = p).
Proof.
  assert (∀ p, trimTrailingSlash (p +:+ "//") = p +:+ "/") as Htwo.
  { intros p. change "//" with ("/" +:+ "/"). rewrite <- string_app_assoc.
    apply trimTrailingSlash_snoc. }
  split_and!; [|done|].
  - destruct (endsInSlash o) eqn:Hends.
    + right. destruct (endsInSlash_true o Hends) as [p ->]. by rewrite trimTrailingSlash_snoc.
    + left. unfold trimTrailingSlash. by rewrite Hends.
  - intros p. rewrite Htwo. apply trimTrailingSlash_snoc.
Qed.

Section MoreReadsAndWrites.
Context {World : Type}.
Variable newRequestError : string → string → option error.
Context `{!Unmarshal Entry} `{!Unmarshal string}.

Implicit Types (c : Client World) (n : Net World).

(** X20: [GetPerson] hands on what the accessors read: the id and display
    name by [GetString], the mail by [GetStringSlice] without normalising
    it, so the mail of a person without a ["mail"] attribute is the nil
    slice (where [GetGroup] would give the empty one); [GetServiceAccount]
    returns the name and never a token. *)
Theorem GetPerson_GetServiceAccount_results c (id : string) n :
  (∀ person n',
      GetPerson newRequestError c id n = (inr person, n') →
      ∃ entry,
        fetchesEntry newRequestError c ("/v1/person/" +:+ id) n entry n'
        ∧ Person_ID person = GetString entry "name"
        ∧ Person_DisplayName person = GetString entry "displayname"
        ∧ Mail person = GetStringSlice entry "mail"
        ∧ (Attrs entry !! "mail" = None → Mail person = SliceNil))
  ∧ (∀ account n',
        GetServiceAccount newRequestError c id n = (inr account, n') →
        ∃ entry,
          fetchesEntry newRequestError c ("/v1/service_account/" +:+ id) n entry n'
          ∧ ServiceAccount_ID account = GetString entry "name"
          ∧ APIToken account = "").
Proof.
  split.
  - intros person n' (entry & Hfetch & ->)%get_entry_inr. exists entry.
    split_and!; try done. simpl. intros Habsent. unfold GetStringSlice. by rewrite Habsent.
  - intros account n' (entry & Hfetch & ->)%get_entry_inr. by exists entry.
Qed.

Lemma updateServiceAccountAttrs_fields (displayName : string) :
  optionalField (updateServiceAccountAttrs displayName) "displayname"
    (displayName = "") (AnyStrings (SliceOf [displayName]))
  ∧ (∀ k, k ≠ "displayname" → updateServiceAccountAttrs displayName !! k = None).
Proof.
  unfold optionalField, updateServiceAccountAttrs. simpl. case_bool_decide; split_and!;
    intros; simplify_map_eq; done.
Qed.

(** X21: [UpdateServiceAccount] sends one [PATCH] whose attribute map holds
    the display name when it is not empty and is empty otherwise.
    [RegenerateOAuth2BasicSecret] and [GetOAuth2BasicSecret] address the same
    URL without a body; the first only ever sends a [POST] there, the second
    only a [GET]. *)
Theorem UpdateServiceAccount_and_secret_requests c (id displayName name : string) n :
  (∃ attrs,
      sendsUpdate newRequestError (UpdateServiceAccount newRequestError c id displayName)
        c ("/v1/service_account/" +:+ id) attrs n
      ∧ optionalField attrs "displayname" (displayName = "")
          (AnyStrings (SliceOf [displayName]))
      ∧ (∀ k, k ≠ "displayname" → attrs !! k = None)
      ∧ (displayName = "" → attrs = ∅))
  ∧ sends (eq (requestOf c "GET" ("/v1/oauth2/" +:+ name +:+ "/_basic_secret") None))
      (GetOAuth2BasicSecret newRequestError c name)
  ∧ sends (eq (requestOf c "POST" ("/v1/oauth2/" +:+ name +:+ "/_basic_secret") None))
      (RegenerateOAuth2BasicSecret newRequestError c name).
Proof.
  split_and!.
  - exists (updateServiceAccountAttrs displayName). split; [apply patch_sendsUpdate|].
    destruct (updateServiceAccountAttrs_fields displayName) as (Hfield & Hother).
    split_and!; try done. intros ->. reflexivity.
  - unfold GetOAuth2BasicSecret. wire_steps.
  - unfold RegenerateOAuth2BasicSecret. wire_steps.
Qed.

End MoreReadsAndWrites.

Lemma GetPerson_GetServiceAccount_results_witness :
  ∃ entry,
    fetchesEntry (Unmarshal0 := Scenario.decodeEntry) Fake.noRequestError Scenario.client
      ("/v1/person/" +:+ "alice") Fake.start entry
      (Fake.after [Scenario.request "GET" "/v1/person/alice" None])
    ∧ SliceOf ["alice@example.com"] = GetStringSlice entry "mail".
Proof.
  destruct (GetPerson_GetServiceAccount_results (Unmarshal0 := Scenario.decodeEntry)
              Fake.noRequestError Scenario.client "alice" Fake.start) as [Hperson _].
  destruct (Hperson {| Person_ID := "alice"; Person_DisplayName := "Alice";
                       Mail := SliceOf ["alice@example.com"] |}
              (Fake.after [Scenario.request "GET" "/v1/person/alice" None]))
    as (entry & Hfetch & _ & _ & Hmail & _).
  - vm_compute. reflexivity.
  - by exists entry.
Defined.
